(** * Diagnostic and remediation engine of the Ansible MCP server

    A shallow embedding of the scoring, log-analysis, correlation and
    auto-heal code of [src/ansible_mcp/server.py], together with the
    properties its specification states about them.

    Conventions of the embedding:
    - Python [str] is [string]; only code points below 128 behave as in
      Python ([lower], [strip], [splitlines], [\d], [\w] are modelled on their
      ASCII fragment).
    - Python [int] is [Z].  A [float] is a [pyfloat]: a rational, one of
      the two infinities, or NaN; only its comparisons with integers are
      used.
    - A dict read with [.get] is a [gmap string _]; a dict that is
      iterated is an association list in insertion order.
    - A raised exception is the [Raise] case of [result]; calls of
      [ansible_task] thread an explicit world and append to a command log. *)

From Stdlib Require Import ZArith QArith Lia Ascii String DecimalString.
From stdpp Require Import base option gmap strings list.

Local Open Scope string_scope.
Local Open Scope list_scope.
Local Open Scope Z_scope.

(** ** Exceptions and results *)

Inductive exn := TypeError | ValueError | IndexError.

Inductive result (A : Type) :=
| Ok (a : A)
| Raise (e : exn).
Arguments Ok {A} a.
Arguments Raise {A} e.

#[global] Instance result_ret : MRet result := fun _ a => Ok a.
#[global] Instance result_bind : MBind result := fun _ _ f r =>
  match r with
  | Ok a => f a
  | Raise e => Raise e
  end.

(** ** The fragment of Python's [str] the engine uses *)

Module PyStr.

Definition code (c : ascii) : Z := Z.of_nat (nat_of_ascii c).

Definition is_digit (c : ascii) : bool := (48 <=? code c) && (code c <=? 57).
Definition is_upper (c : ascii) : bool := (65 <=? code c) && (code c <=? 90).
Definition is_lower (c : ascii) : bool := (97 <=? code c) && (code c <=? 122).

(** [\w] of [re]: letters, digits and the underscore. *)
Definition is_word (c : ascii) : bool :=
  is_digit c || is_upper c || is_lower c || (code c =? 95).

(** [str.isspace]: tab, LF, VT, FF, CR, the separators 28..31, space. *)
Definition is_space (c : ascii) : bool :=
  ((9 <=? code c) && (code c <=? 13)) || ((28 <=? code c) && (code c <=? 32)).

(** Line boundaries of [str.splitlines]: LF, VT, FF, CR, FS, GS, RS. *)
Definition is_linebreak (c : ascii) : bool :=
  ((10 <=? code c) && (code c <=? 13)) || ((28 <=? code c) && (code c <=? 30)).

Definition lower_char (c : ascii) : ascii :=
  if is_upper c then ascii_of_nat (nat_of_ascii c + 32) else c.

Fixpoint lower (s : string) : string :=
  match s with
  | EmptyString => EmptyString
  | String c s' => String (lower_char c) (lower s')
  end.

Fixpoint lstrip (s : string) : string :=
  match s with
  | EmptyString => EmptyString
  | String c s' => if is_space c then lstrip s' else s
  end.

Fixpoint rstrip (s : string) : string :=
  match s with
  | EmptyString => EmptyString
  | String c s' =>
      let r := rstrip s' in
      if is_space c && String.eqb r "" then "" else String c r
  end.

Definition strip (s : string) : string := rstrip (lstrip s).

Definition snoc (s : string) (c : ascii) : string := s +:+ String c "".

(** [s.split(sep)] for a one-character separator: always at least one
    piece. [cur] is the piece being read. *)
Fixpoint split_from (sep : ascii) (s cur : string) : list string :=
  match s with
  | EmptyString => [cur]
  | String c s' =>
      if Ascii.eqb c sep then cur :: split_from sep s' ""
      else split_from sep s' (snoc cur c)
  end.

Definition split (sep : ascii) (s : string) : list string := split_from sep s "".

(** [s.splitlines()]: no piece for a trailing line break, CR LF is one
    break. [after_cr] says the previous character was a CR. *)
Fixpoint splitlines_from (s cur : string) (after_cr : bool) : list string :=
  match s with
  | EmptyString => if String.eqb cur "" then [] else [cur]
  | String c s' =>
      if after_cr && (code c =? 10) then splitlines_from s' cur false
      else if is_linebreak c then cur :: splitlines_from s' "" (code c =? 13)
      else splitlines_from s' (snoc cur c) false
  end.

Definition splitlines (s : string) : list string := splitlines_from s "" false.

(** [needle in hay]. *)
Fixpoint contains (needle hay : string) : bool :=
  String.prefix needle hay ||
  match hay with
  | EmptyString => false
  | String _ hay' => contains needle hay'
  end.

Definition endswith (s suffix : string) : bool :=
  let n := String.length s in
  let k := String.length suffix in
  (k <=? n)%nat && String.eqb (substring (n - k) k s) suffix.

(** [s[:-1]]. *)
Definition drop_last (s : string) : string :=
  substring 0 (String.length s - 1) s.

Fixpoint join (sep : string) (l : list string) : string :=
  match l with
  | [] => ""
  | [x] => x
  | x :: l' => x +:+ sep +:+ join sep l'
  end.

Definition digit_val (c : ascii) : option Z :=
  if is_digit c then Some (code c - 48) else None.

(** Digits of an integer literal given to [int]: single underscores are
    allowed between digits only. *)
Fixpoint int_digits (s : string) (acc : Z) (after_digit : bool) : option Z :=
  match s with
  | EmptyString => if after_digit then Some acc else None
  | String c s' =>
      match digit_val c with
      | Some d => int_digits s' (acc * 10 + d) true
      | None =>
          if (code c =? 95) && after_digit then int_digits s' acc false
          else None
      end
  end.

(** [int(s)]: surrounding whitespace, an optional sign, decimal digits;
    anything else is a [ValueError]. *)
Definition py_int (s : string) : result Z :=
  let body := strip s in
  let parsed :=
    match body with
    | String "+" r => int_digits r 0 false
    | String "-" r => Z.opp <$> int_digits r 0 false
    | _ => int_digits body 0 false
    end in
  match parsed with
  | Some z => Ok z
  | None => Raise ValueError
  end.

(** [str(z)], as interpolated by an f-string. *)
Definition str_of_int (z : Z) : string :=
  DecimalString.NilZero.string_of_int (Z.to_int z).

(** Python list slices [l[-n:]] and [l[:n]]. *)
Definition last_n {A} (n : nat) (l : list A) : list A :=
  drop (length l - n) l.

End PyStr.

(** ** Python values stored in a metrics bag *)

Inductive pyfloat :=
| Finite (q : Q)
| PosInf
| NegInf
| NaN.

Inductive value :=
| VNone
| VBool (b : bool)
| VInt (z : Z)
| VFloat (f : pyfloat)
| VStr (s : string)
| VList (l : list string).

(** [x > k] for a float [x] and an integer literal [k]. *)
Definition float_gt (f : pyfloat) (k : Z) : bool :=
  match f with
  | Finite q => negb (Qle_bool q (inject_Z k))
  | PosInf => true
  | NegInf => false
  | NaN => false
  end.

(** [v > k]: defined on numbers ([bool] is a subclass of [int]), a
    [TypeError] on [None], [str] and [list]. *)
Definition py_gt (v : value) (k : Z) : result bool :=
  match v with
  | VBool b => Ok (Z.b2z b >? k)
  | VInt z => Ok (z >? k)
  | VFloat f => Ok (float_gt f k)
  | VNone | VStr _ | VList _ => Raise TypeError
  end.

(** Truth value of an object, as tested by [if v:] and [not v]. *)
Definition truthy (v : value) : bool :=
  match v with
  | VNone => false
  | VBool b => b
  | VInt z => negb (z =? 0)
  | VFloat (Finite q) => negb (Qeq_bool q 0)
  | VFloat _ => true
  | VStr s => negb (String.eqb s "")
  | VList l => match l with [] => false | _ => true end
  end.

(** The one-character strings obtained by iterating over a [str]. *)
Fixpoint chars (s : string) : list string :=
  match s with
  | EmptyString => []
  | String c s' => String c EmptyString :: chars s'
  end.

(** The elements [len] counts and a comprehension iterates over; a
    [TypeError] for an object without a length. *)
Definition py_elements (v : value) : result (list string) :=
  match v with
  | VList l => Ok l
  | VStr s => Ok (chars s)
  | VNone | VBool _ | VInt _ | VFloat _ => Raise TypeError
  end.

(** ** Health scoring: [_calculate_health_score] *)

Module HealthScorer.

Record HealthAssessment := {
  score : Z;
  level : string;
  issues : list string;
  recommendations : list string
}.

(** The three locals the function updates: [score], [issues],
    [recommendations]. *)
Record locals := {
  l_score : Z;
  l_issues : list string;
  l_recommendations : list string
}.

Definition deduct (d : Z) (issue rec : list string) (st : locals) : locals :=
  {| l_score := l_score st - d;
     l_issues := (l_issues st ++ issue)%list;
     l_recommendations := (l_recommendations st ++ rec)%list |}.

Definition cpu_health (metrics : gmap string value) (st : locals) : result locals :=
  let cpu_usage := default (VInt 0) (metrics !! "cpu_percent") in
  c ← py_gt cpu_usage 90;
  if c : bool then
    Ok (deduct 30 ["Critical CPU usage"]
          ["Identify high CPU processes and optimize or scale"] st)
  else
    c ← py_gt cpu_usage 75;
    if c : bool then
      Ok (deduct 15 ["High CPU usage"]
            ["Monitor CPU trends and prepare for scaling"] st)
    else Ok st.

Definition memory_health (metrics : gmap string value) (st : locals) : result locals :=
  let memory_percent := default (VInt 0) (metrics !! "memory_percent") in
  c ← py_gt memory_percent 95;
  if c : bool then
    Ok (deduct 25 ["Critical memory usage"] ["Free memory or add more RAM"] st)
  else
    c ← py_gt memory_percent 85;
    if c : bool then
      Ok (deduct 10 ["High memory usage"]
            ["Monitor memory consumption patterns"] st)
    else Ok st.

Definition disk_health (metrics : gmap string value) (st : locals) : result locals :=
  let disk_usage := default (VInt 0) (metrics !! "disk_usage_percent") in
  c ← py_gt disk_usage 95;
  if c : bool then
    Ok (deduct 20 ["Critical disk space"] ["Clean up files or expand storage"] st)
  else
    c ← py_gt disk_usage 85;
    if c : bool then
      Ok (deduct 10 ["High disk usage"] ["Plan for disk space expansion"] st)
    else Ok st.

Definition service_health (metrics : gmap string value) (st : locals) : result locals :=
  let failed_services := default (VList []) (metrics !! "failed_services") in
  if truthy failed_services then
    svcs ← py_elements failed_services;
    Ok (deduct (Z.of_nat (length svcs) * 15)
          (map (fun svc => "Service " +:+ svc +:+ " is failed") svcs)
          (map (fun svc => "Investigate and restart " +:+ svc) svcs) st)
  else Ok st.

Definition network_connectivity (metrics : gmap string value) (st : locals) : locals :=
  if negb (truthy (default (VBool true) (metrics !! "network_reachable"))) then
    deduct 20 ["Network connectivity issues"]
      ["Check network configuration and connectivity"] st
  else st.

Definition level_of (score : Z) : string :=
  if score <? 50 then "critical" else if score <? 80 then "warning" else "healthy".

Definition _calculate_health_score (metrics : gmap string value)
  : result HealthAssessment :=
  let st := {| l_score := 100; l_issues := []; l_recommendations := [] |} in
  st ← cpu_health metrics st;
  st ← memory_health metrics st;
  st ← disk_health metrics st;
  st ← service_health metrics st;
  let st := network_connectivity metrics st in
  Ok {| score := Z.max 0 (l_score st);
        level := level_of (l_score st);
        issues := l_issues st;
        recommendations := l_recommendations st |}.

(** A bag typed as the data model types it: the three percentages are
    numbers and [failed_services] is a list, where they are present. *)
Definition is_number (v : value) : bool :=
  match v with
  | VBool _ | VInt _ | VFloat _ => true
  | VNone | VStr _ | VList _ => false
  end.

Definition is_list (v : value) : bool :=
  match v with
  | VList _ => true
  | _ => false
  end.

Definition field_ok (check : value -> bool) (metrics : gmap string value)
    (key : string) : bool :=
  match metrics !! key with
  | Some v => check v
  | None => true
  end.

Definition well_typed (metrics : gmap string value) : bool :=
  field_ok is_number metrics "cpu_percent"
  && field_ok is_number metrics "memory_percent"
  && field_ok is_number metrics "disk_usage_percent"
  && field_ok is_list metrics "failed_services".

End HealthScorer.

(** ** Log pattern analysis: [_analyze_log_patterns] *)

Module LogPatternAnalyzer.
Import PyStr.

(** Every pattern of the table is an alternation of literal strings, so
    [re.search(pattern, line)] holds iff one of the literals occurs in
    [line]; the search is case-sensitive (no [re.IGNORECASE]). *)
Definition re_search_alternatives (alternatives : list string) (line : string) : bool :=
  existsb (fun a => contains a line) alternatives.

Definition error_patterns : list (list string * string) :=
  [ (["ERROR"; "CRITICAL"; "FATAL"], "error");
    (["WARNING"; "WARN"], "warning");
    (["failed"; "failure"; "exception"], "failure");
    (["timeout"; "timed out"], "timeout");
    (["connection refused"; "connection reset"], "connection");
    (["out of memory"; "oom"], "memory");
    (["permission denied"; "access denied"], "permission") ].

(** [d[k] += 1] on a [defaultdict(int)], keys kept in insertion order. *)
Fixpoint increment (k : string) (d : list (string * Z)) : list (string * Z) :=
  match d with
  | [] => [(k, 1)]
  | (k', n) :: d' =>
      if String.eqb k' k then (k', n + 1) :: d' else (k', n) :: increment k d'
  end.

Definition string_in (x : string) (l : list string) : bool :=
  existsb (String.eqb x) l.

Record Analysis := {
  pattern_counts : list (string * Z);
  recent_errors : list string;
  total_lines_analyzed : Z;
  (** [error_rate] is the float [matched / considered * 100]; its two
      integer operands are kept instead of the rounded quotient. *)
  error_rate_matched : Z;
  error_rate_considered : Z
}.

(** The body of the inner loop, for one line and one table row. *)
Definition scan_pattern (line : string) (acc : list (string * Z) * list string)
    (row : list string * string) : list (string * Z) * list string :=
  let '(pattern_counts, recent_errors) := acc in
  let '(pattern, category) := row in
  let line_lower := lower line in
  if re_search_alternatives pattern line_lower then
    (increment category pattern_counts,
     if string_in category ["error"; "failure"; "timeout"]
     then (recent_errors ++ [strip line])%list else recent_errors)
  else acc.

Definition scan_line (acc : list (string * Z) * list string) (line : string)
  : list (string * Z) * list string :=
  fold_left (scan_pattern line) error_patterns acc.

Definition _analyze_log_patterns (logs : string) : Analysis :=
  let lines := splitlines logs in
  let '(pattern_counts, recent_errors) :=
    fold_left scan_line (last_n 1000 lines) ([], []) in
  {| pattern_counts := pattern_counts;
     recent_errors := last_n 10 recent_errors;
     total_lines_analyzed := Z.min 1000 (Z.of_nat (length lines));
     error_rate_matched := fold_right Z.add 0 (map snd pattern_counts);
     error_rate_considered := Z.max 1 (Z.of_nat (length (last_n 1000 lines))) |}.

End LogPatternAnalyzer.

(** ** Timestamps: [datetime] and [_extract_timestamp_from_log] *)

Module Timestamp.
Import PyStr.

Record datetime := {
  year : Z; month : Z; day : Z; hour : Z; minute : Z; second : Z
}.

Definition is_leap (y : Z) : bool :=
  (y mod 4 =? 0) && (negb (y mod 100 =? 0) || (y mod 400 =? 0)).

Definition days_in_month (y m : Z) : Z :=
  if m =? 2 then (if is_leap y then 29 else 28)
  else if (m =? 4) || (m =? 6) || (m =? 9) || (m =? 11) then 30 else 31.

Definition days_before_year (y : Z) : Z :=
  let p := y - 1 in p * 365 + p / 4 - p / 100 + p / 400.

Definition days_before_month (y m : Z) : Z :=
  fold_right Z.add 0 (map (days_in_month y) (map Z.of_nat (seq 1 (Z.to_nat (m - 1))))).

Definition toordinal (d : datetime) : Z :=
  days_before_year (year d) + days_before_month (year d) (month d) + day d.

(** [(a - b).total_seconds()] of two naive datetimes without
    microseconds. *)
Definition total_seconds_between (a b : datetime) : Z :=
  (toordinal a - toordinal b) * 86400
  + (hour a - hour b) * 3600 + (minute a - minute b) * 60 + (second a - second b).

(** [a < b]: the fields are compared in order. *)
Definition dt_fields (d : datetime) : list Z :=
  [year d; month d; day d; hour d; minute d; second d].

Fixpoint lex_lt (a b : list Z) : bool :=
  match a, b with
  | x :: a', y :: b' => (x <? y) || ((x =? y) && lex_lt a' b')
  | [], _ :: _ => true
  | _, [] => false
  end.

Definition dt_lt (a b : datetime) : bool := lex_lt (dt_fields a) (dt_fields b).

(** The constructor [datetime(y, m, d, H, M, S)], which checks ranges. *)
Definition make_datetime (y m d hh mm ss : Z) : result datetime :=
  if (1 <=? y) && (y <=? 9999) && (1 <=? m) && (m <=? 12)
     && (1 <=? d) && (d <=? days_in_month y m)
     && (0 <=? hh) && (hh <=? 23) && (0 <=? mm) && (mm <=? 59)
     && (0 <=? ss) && (ss <=? 59)
  then Ok {| year := y; month := m; day := d;
             hour := hh; minute := mm; second := ss |}
  else Raise ValueError.


(** *** Regular expressions of the two recognised formats *)

(** Exactly [n] digits at the head of [s]: the digits and what follows. *)
Fixpoint take_digits (n : nat) (s : string) : option (string * string) :=
  match n with
  | O => Some ("", s)
  | S n' =>
      match s with
      | String c s' =>
          if is_digit c then
            '(ds, rest) ← take_digits n' s'; Some (String c ds, rest)
          else None
      | EmptyString => None
      end
  end.

Fixpoint take_words (n : nat) (s : string) : option (string * string) :=
  match n with
  | O => Some ("", s)
  | S n' =>
      match s with
      | String c s' =>
          if is_word c then
            '(ws, rest) ← take_words n' s'; Some (String c ws, rest)
          else None
      | EmptyString => None
      end
  end.

Definition take_char (c : ascii) (s : string) : option string :=
  match s with
  | String c' s' => if Ascii.eqb c c' then Some s' else None
  | EmptyString => None
  end.

(** [\d{2}:\d{2}:\d{2}] at the head of [s]: the matched text. *)
Definition match_clock (s : string) : option string :=
  '(hh, s) ← take_digits 2 s;
  s ← take_char ":" s;
  '(mm, s) ← take_digits 2 s;
  s ← take_char ":" s;
  '(ss, _) ← take_digits 2 s;
  Some (hh +:+ ":" +:+ mm +:+ ":" +:+ ss).

(** [\d{4}-\d{2}-\d{2} \d{2}:\d{2}:\d{2}] at the head of [s]. *)
Definition match_iso (s : string) : option string :=
  '(yyyy, s) ← take_digits 4 s;
  s ← take_char "-" s;
  '(mm, s) ← take_digits 2 s;
  s ← take_char "-" s;
  '(dd, s) ← take_digits 2 s;
  s ← take_char " " s;
  clock ← match_clock s;
  Some (yyyy +:+ "-" +:+ mm +:+ "-" +:+ dd +:+ " " +:+ clock).

(** [\w{3} \d{1,2} \d{2}:\d{2}:\d{2}] at the head of [s]; the greedy
    [\d{1,2}] tries two digits before one. *)
Definition match_syslog (s : string) : option string :=
  '(b, s) ← take_words 3 s;
  s ← take_char " " s;
  let with_day (n : nat) : option string :=
    '(d, s) ← take_digits n s;
    s ← take_char " " s;
    clock ← match_clock s;
    Some (b +:+ " " +:+ d +:+ " " +:+ clock) in
  match with_day 2%nat with
  | Some t => Some t
  | None => with_day 1%nat
  end.

(** [re.search]: the leftmost position where the pattern matches. *)
Fixpoint re_search (at_head : string -> option string) (s : string) : option string :=
  match at_head s with
  | Some t => Some t
  | None =>
      match s with
      | EmptyString => None
      | String _ s' => re_search at_head s'
      end
  end.

(** *** [datetime.strptime] on the text a pattern captured *)

Definition number (s : string) : Z := default 0 (int_digits s 0 false).

(** ['%Y-%m-%d %H:%M:%S'] on a capture of [match_iso]: every field has
    its full width, so the directive succeeds iff the number is in the
    directive's range; the constructor then checks the date itself. *)
Definition strptime_iso (t : string) : result datetime :=
  let y := number (substring 0 4 t) in
  let m := number (substring 5 2 t) in
  let d := number (substring 8 2 t) in
  let hh := number (substring 11 2 t) in
  let mm := number (substring 14 2 t) in
  let ss := number (substring 17 2 t) in
  if (1 <=? m) && (m <=? 12) && (1 <=? d) && (d <=? 31)
     && (hh <=? 23) && (mm <=? 59) && (ss <=? 61)
  then make_datetime y m d hh mm ss
  else Raise ValueError.

(** [%b] in the C locale, matched without regard to case. *)
Definition month_abbreviations : list string :=
  ["jan"; "feb"; "mar"; "apr"; "may"; "jun";
   "jul"; "aug"; "sep"; "oct"; "nov"; "dec"].

Fixpoint index_of (x : string) (l : list string) (i : Z) : option Z :=
  match l with
  | [] => None
  | y :: l' => if String.eqb x y then Some i else index_of x l' (i + 1)
  end.

(** ['%Y %b %d %H:%M:%S'] on [f"{current_year} {t}"] for a capture [t]
    of [match_syslog]. *)
Definition strptime_syslog (current_year : Z) (t : string) : result datetime :=
  match split " " t with
  | [b; d; clock] =>
      match index_of (lower b) month_abbreviations 1 with
      | Some m =>
          let d := number d in
          let hh := number (substring 0 2 clock) in
          let mm := number (substring 3 2 clock) in
          let ss := number (substring 6 2 clock) in
          if (1000 <=? current_year) && (current_year <=? 9999)
             && (1 <=? d) && (d <=? 31)
             && (hh <=? 23) && (mm <=? 59) && (ss <=? 61)
          then make_datetime current_year m d hh mm ss
          else Raise ValueError
      | None => Raise ValueError
      end
  | _ => Raise ValueError
  end.

Definition timestamp_patterns : list (string -> option string) :=
  [match_iso; match_syslog].

(** The text a pattern captured is parsed by the branch its dashes
    select. *)
Definition parse_capture (current_year : Z) (timestamp_str : string) : result datetime :=
  if contains "-" timestamp_str
  then strptime_iso timestamp_str
  else strptime_syslog current_year timestamp_str.

(** The loop over the patterns: the first one that matches decides. *)
Fixpoint try_patterns (current_year : Z) (patterns : list (string -> option string))
    (log_line : string) : result (option datetime) :=
  match patterns with
  | [] => Ok None
  | pattern :: patterns' =>
      match re_search pattern log_line with
      | Some timestamp_str =>
          dt ← parse_capture current_year timestamp_str; Ok (Some dt)
      | None => try_patterns current_year patterns' log_line
      end
  end.

(** The function catches every exception and returns [None] instead; an
    ISO capture that fails to parse is not retried as syslog. *)
Definition _extract_timestamp_from_log (current_year : Z) (log_line : string)
  : option datetime :=
  match try_patterns current_year timestamp_patterns log_line with
  | Ok r => r
  | Raise _ => None
  end.

End Timestamp.

(** ** The remote executor: [ansible_task] over [_run_command] *)

Module Executor.

(** The dict [ansible_task] returns ([command], the shell-quoted command
    line, is left out). *)
Record CommandResult := {
  ok : bool;
  rc : Z;
  stdout : string;
  stderr : string
}.

(** What the engine passes to [ansible_task]: always the [shell] module
    with [_raw_params]; [cwd] and [env] come from path resolution on the
    local file system and belong to the world. *)
Record Request := {
  host_pattern : string;
  module : string;
  raw_params : string;
  inventory : option string
}.

(** The world the subprocess runs in, and the requests issued so far. *)
Record Env (World : Type) := {
  world : World;
  issued : list Request
}.
Arguments world {World} _.
Arguments issued {World} _.

(** Computations that may raise and that may run commands. *)
Definition M (World A : Type) : Type := Env World -> result A * Env World.

#[global] Instance M_ret {World} : MRet (M World) := fun _ a e => (Ok a, e).
#[global] Instance M_bind {World} : MBind (M World) := fun _ _ f m e =>
  match m e with
  | (Ok a, e') => f a e'
  | (Raise x, e') => (Raise x, e')
  end.

Definition lift {World A} (r : result A) : M World A := fun e => (r, e).

Section Exec.
Context {World : Type}.
(** [_run_command]: exit code, stdout and stderr of the [ansible]
    process for a request. *)
Variable _run_command : Request -> World -> (Z * string * string) * World.

Definition ansible_task (req : Request) : M World CommandResult := fun e =>
  let '((code, out, err), w) := _run_command req (world e) in
  (Ok {| ok := code =? 0; rc := code; stdout := out; stderr := err |},
   {| world := w; issued := (issued e ++ [req])%list |}).

(** [for x in l: body], threading the loop's locals. *)
Fixpoint for_each {A S : Type} (body : S -> A -> M World S) (l : list A) (s : S)
  : M World S :=
  match l with
  | [] => mret s
  | x :: l' => s' ← body s x; for_each body l' s'
  end.
End Exec.

(** What the process prints for a request in a given world. *)
Definition printed {World : Type}
    (_run_command : Request -> World -> (Z * string * string) * World)
    (req : Request) (w : World) : string :=
  let '((_, out, _), _) := _run_command req w in out.

(** The exit code of the process for a request in a given world. *)
Definition exit_code {World : Type}
    (_run_command : Request -> World -> (Z * string * string) * World)
    (req : Request) (w : World) : Z :=
  let '((code, _, _), _) := _run_command req w in code.

(** The task of every probe of a call: module [shell] on the call's host
    pattern and inventory. *)
Definition shell (host : string) (inv : option string) (cmd : string) : Request :=
  {| host_pattern := host; module := "shell"; raw_params := cmd; inventory := inv |}.

(** [",".join(inventory_paths) if inventory_paths else None]. *)
Definition inventory_str (inventory_paths : option (list string)) : option string :=
  match inventory_paths with
  | Some (p :: ps) => Some (PyStr.join "," (p :: ps))
  | _ => None
  end.

(** [d[k] = v] on a dict kept in insertion order. *)
Fixpoint dict_set {V} (k : string) (v : V) (d : list (string * V)) : list (string * V) :=
  match d with
  | [] => [(k, v)]
  | (k', v') :: d' =>
      if String.eqb k' k then (k', v) :: d' else (k', v') :: dict_set k v d'
  end.

(** [d.get(k)]. *)
Fixpoint dict_get {V} (k : string) (d : list (string * V)) : option V :=
  match d with
  | [] => None
  | (k', v) :: d' => if String.eqb k' k then Some v else dict_get k d'
  end.

End Executor.

(** ** Log hunting and event correlation: [ansible_log_hunter] *)

Module LogHunter.
Import PyStr Timestamp Executor.

Record LogMatch := {
  log_file : string;
  pattern : string;
  line : string;
  timestamp : option datetime
}.

Record Correlation := {
  primary_event : LogMatch;
  related_events : list LogMatch;
  correlation_strength : Z
}.

Record PatternHits := {
  matches : list string;
  count : Z
}.

Record HuntReport := {
  hunt_results : list (string * list (string * PatternHits));
  total_matches : Z;
  correlated_events : Z;
  correlations : list Correlation;
  patterns_searched : Z;
  logs_searched : Z;
  logs_with_matches : Z
}.

Definition default_logs : list string :=
  ["/var/log/syslog"; "/var/log/messages"; "/var/log/auth.log";
   "/var/log/secure"; "/var/log/kern.log"].

(** The [--since] filter built from [time_range]; [int] may raise. *)
Definition time_filter_of (time_range : option string) : result string :=
  match time_range with
  | Some tr =>
      if String.eqb tr "" then Ok ""
      else if endswith tr "h" then
        hours ← py_int (drop_last tr);
        Ok ("--since '" +:+ str_of_int hours +:+ " hours ago'")
      else if endswith tr "d" then
        days ← py_int (drop_last tr);
        Ok ("--since '" +:+ str_of_int days +:+ " days ago'")
      else Ok ""
  | None => Ok ""
  end.

Definition search_cmd_of (time_filter log_path pattern : string) : string :=
  if negb (String.eqb time_filter "") && contains "journal" log_path
  then "journalctl " +:+ time_filter +:+ " | grep -E '" +:+ pattern +:+ "'"
  else "grep -E '" +:+ pattern +:+ "' " +:+ log_path +:+ " 2>/dev/null | tail -100".

(** *** Sorting by timestamp *)

Definition has_timestamp (m : LogMatch) : bool :=
  match timestamp m with Some _ => true | None => false end.

(** [a.timestamp < b.timestamp] for two matches that both have one. *)
Definition earlier (a b : LogMatch) : bool :=
  match timestamp a, timestamp b with
  | Some ta, Some tb => dt_lt ta tb
  | _, _ => false
  end.

Fixpoint insert_by_time (x : LogMatch) (l : list LogMatch) : list LogMatch :=
  match l with
  | [] => [x]
  | y :: l' => if earlier x y then x :: l else y :: insert_by_time x l'
  end.

(** [sorted(all_matches, key=lambda x: x.get("timestamp", ""))]. The key
    ["timestamp"] is always present, so the default is never used and a
    key is a [datetime] or [None]. The sort is stable. Sorting two or
    more items compares every key with another one, and [<] between
    [None] and anything raises [TypeError]. *)
Definition sorted_by_timestamp (all_matches : list LogMatch) : result (list LogMatch) :=
  if (1 <? Z.of_nat (length all_matches)) && negb (forallb has_timestamp all_matches)
  then Raise TypeError
  else Ok (fold_left (fun acc x => insert_by_time x acc) all_matches []).

(** *** Events within the correlation window *)

(** The loop over [enumerate(sorted_matches)]; [rest] is
    [sorted_matches[i+1:]]. *)
Fixpoint correlate_sorted (correlation_window : Z) (sorted_matches : list LogMatch)
  : list Correlation :=
  match sorted_matches with
  | [] => []
  | event :: rest =>
      match timestamp event with
      | Some event_time =>
          let related :=
            List.filter (fun other =>
                           match timestamp other with
                           | Some other_time =>
                               Z.abs (total_seconds_between event_time other_time)
                               <=? correlation_window
                           | None => false
                           end) rest in
          let related_events := event :: related in
          ((if 1 <? Z.of_nat (length related_events)
           then [ {| primary_event := event;
                     related_events := related;
                     correlation_strength := Z.of_nat (length related_events) |} ]
           else []) ++ correlate_sorted correlation_window rest)%list
      | None => correlate_sorted correlation_window rest
      end
  end.

Definition correlate (all_matches : list LogMatch) (correlation_window : Z)
  : result (list Correlation) :=
  if 1 <? Z.of_nat (length all_matches) then
    sorted_matches ← sorted_by_timestamp all_matches;
    Ok (correlate_sorted correlation_window sorted_matches)
  else Ok [].

Section Hunt.
Context {World : Type}.
Variable _run_command : Request -> World -> (Z * string * string) * World.
(** [datetime.now().year], read when a syslog timestamp is parsed. *)
Variable current_year : Z.

Definition matches_of (log_path pattern : string) (lines : list string) : list LogMatch :=
  map (fun l => {| log_file := log_path; pattern := pattern; line := l;
                   timestamp := _extract_timestamp_from_log current_year l |})
      lines.

(** The body of the loop over [search_patterns], for one log. *)
Definition search_pattern (host : string) (inv : option string)
    (time_filter log_path : string)
    (acc : list (string * PatternHits) * list LogMatch) (pattern : string)
  : M World (list (string * PatternHits) * list LogMatch) :=
  let '(log_results, all_matches) := acc in
  search_result ← ansible_task _run_command
                    (shell host inv (search_cmd_of time_filter log_path pattern));
  if ok search_result && negb (String.eqb (stdout search_result) "") then
    let matches := split (ascii_of_nat 10) (strip (stdout search_result)) in
    mret (dict_set pattern
            {| matches := matches; count := Z.of_nat (length matches) |}
            log_results,
          (all_matches ++ matches_of log_path pattern matches)%list)
  else mret (log_results, all_matches).

(** The body of the loop over [logs_to_search]. *)
Definition search_log (host : string) (inv : option string)
    (time_filter : string) (search_patterns : list string)
    (acc : list (string * list (string * PatternHits)) * list LogMatch)
    (log_path : string)
  : M World (list (string * list (string * PatternHits)) * list LogMatch) :=
  let '(hunt_results, all_matches) := acc in
  '(log_results, all_matches) ←
    for_each (search_pattern host inv time_filter log_path)
             search_patterns ([], all_matches);
  mret (match log_results with
        | [] => hunt_results
        | _ => dict_set log_path log_results hunt_results
        end,
        all_matches).

Definition ansible_log_hunter (host : string) (search_patterns : list string)
    (log_paths : option (list string)) (inventory_paths : option (list string))
    (time_range : option string) (correlation_window : Z)
  : M World HuntReport :=
  let inv := inventory_str inventory_paths in
  let logs_to_search :=
    match log_paths with
    | Some (p :: ps) => p :: ps
    | _ => default_logs
    end in
  time_filter ← lift (time_filter_of time_range);
  '(hunt_results, all_matches) ←
    for_each (search_log host inv time_filter search_patterns)
             logs_to_search ([], []);
  correlated ← lift (correlate all_matches correlation_window);
  mret {| hunt_results := hunt_results;
          total_matches := Z.of_nat (length all_matches);
          correlated_events := Z.of_nat (length correlated);
          correlations := take 10 correlated;
          patterns_searched := Z.of_nat (length search_patterns);
          logs_searched := Z.of_nat (length logs_to_search);
          logs_with_matches := Z.of_nat (length hunt_results) |}.
End Hunt.

End LogHunter.

(** ** Auto-heal planning and execution: [ansible_auto_heal] *)

Module AutoHeal.
Import PyStr Executor.

Record HealingAction := {
  symptom : string;
  action : string;
  impact : string;
  command : string;
  safety_check : string;
  description : string
}.

(** [a == b] on two action dicts. *)
Definition action_eqb (a b : HealingAction) : bool :=
  String.eqb (symptom a) (symptom b) && String.eqb (action a) (action b)
  && String.eqb (impact a) (impact b) && String.eqb (command a) (command b)
  && String.eqb (safety_check a) (safety_check b)
  && String.eqb (description a) (description b).

Record ExecutionResult := {
  er_action : HealingAction;
  safety_check_result : CommandResult;
  healing_result : CommandResult;
  success : bool
}.

Record HealReport := {
  symptoms : list string;
  proposed_actions : list HealingAction;
  blocked_actions : list HealingAction;
  max_impact : option string;
  dry_run : option bool;
  execution_results : option (list ExecutionResult);
  total_symptoms : Z;
  actionable_symptoms : Z;
  executed_actions : Z;
  successful_actions : Z
}.

(** The body of the loop over [symptoms]: the if/elif chain. *)
Definition add_action (healing_actions : list HealingAction) (symptom : string)
  : list HealingAction :=
  if String.eqb symptom "high_cpu" then
    healing_actions ++
    [ {| symptom := symptom;
         action := "restart_high_cpu_processes";
         impact := "medium";
         command := "kill -9 $(ps aux --sort=-%cpu | head -6 | tail -5 | awk '{print $2}')";
         safety_check := "ps aux --sort=-%cpu | head -6";
         description := "Terminate top 5 CPU-consuming processes" |} ]
  else if String.eqb symptom "high_memory" then
    healing_actions ++
    [ {| symptom := symptom;
         action := "clear_cache";
         impact := "low";
         command := "sync && echo 3 > /proc/sys/vm/drop_caches";
         safety_check := "free -m";
         description := "Clear system cache to free memory" |} ]
  else if String.eqb symptom "disk_full" then
    healing_actions ++
    [ {| symptom := symptom;
         action := "cleanup_temp_files";
         impact := "low";
         command := "find /tmp -type f -atime +7 -delete && find /var/log -name '*.log' -size +100M -delete";
         safety_check := "df -h";
         description := "Clean up old temporary files and large logs" |} ]
  else if String.eqb symptom "service_failed" then
    healing_actions ++
    [ {| symptom := symptom;
         action := "restart_failed_services";
         impact := "medium";
         command := "systemctl reset-failed && systemctl restart $(systemctl --failed --no-legend | awk '{print $1}')";
         safety_check := "systemctl --failed";
         description := "Restart all failed services" |} ]
  else healing_actions.

Definition healing_actions_for (symptoms : list string) : list HealingAction :=
  fold_left add_action symptoms [].

(** [impact_hierarchy.get(name, 1)]. *)
Definition impact_hierarchy_get (name : string) : Z :=
  default 1 (dict_get name [("low", 1); ("medium", 2); ("high", 3)]).

(** [impact_hierarchy.get(max_impact or "low", 1)]. *)
Definition max_impact_level (max_impact : option string) : Z :=
  impact_hierarchy_get
    (match max_impact with
     | Some m => if String.eqb m "" then "low" else m
     | None => "low"
     end).

Definition allowed_actions_of (healing_actions : list HealingAction)
    (max_impact : option string) : list HealingAction :=
  List.filter (fun a => impact_hierarchy_get (impact a) <=? max_impact_level max_impact)
              healing_actions.

(** [[a for a in healing_actions if a not in allowed_actions]]. *)
Definition blocked_actions_of (healing_actions allowed_actions : list HealingAction)
  : list HealingAction :=
  List.filter (fun a => negb (existsb (action_eqb a) allowed_actions)) healing_actions.

(** The three impact ceilings and their order low < medium < high. *)
Inductive Ceiling := Low | Medium | High.

Definition ceiling_name (c : Ceiling) : string :=
  match c with
  | Low => "low"
  | Medium => "medium"
  | High => "high"
  end.

Definition ceiling_rank (c : Ceiling) : Z :=
  match c with
  | Low => 1
  | Medium => 2
  | High => 3
  end.

(** [not dry_run] for an optional flag. *)
Definition not_dry (dry_run : option bool) : bool :=
  match dry_run with
  | Some true => false
  | _ => true
  end.

Section Heal.
Context {World : Type}.
Variable _run_command : Request -> World -> (Z * string * string) * World.

(** The body of the execution loop: safety check, then the command. *)
Definition execute_action (host : string) (inv : option string)
    (execution_results : list ExecutionResult) (a : HealingAction)
  : M World (list ExecutionResult) :=
  safety_result ← ansible_task _run_command (shell host inv (safety_check a));
  heal_result ← ansible_task _run_command (shell host inv (command a));
  mret (execution_results ++
        [ {| er_action := a;
             safety_check_result := safety_result;
             healing_result := heal_result;
             success := ok heal_result |} ]).

Definition ansible_auto_heal (host : string) (symptoms : list string)
    (inventory_paths : option (list string))
    (max_impact : option string) (dry_run : option bool)
  : M World HealReport :=
  let inv := inventory_str inventory_paths in
  let healing_actions := healing_actions_for symptoms in
  let allowed_actions := allowed_actions_of healing_actions max_impact in
  execution_results ←
    (if not_dry dry_run
     then for_each (execute_action host inv) allowed_actions []
     else mret []);
  mret {| symptoms := symptoms;
          proposed_actions := allowed_actions;
          blocked_actions := blocked_actions_of healing_actions allowed_actions;
          max_impact := max_impact;
          dry_run := dry_run;
          execution_results :=
            if not_dry dry_run then Some execution_results else None;
          total_symptoms := Z.of_nat (length symptoms);
          actionable_symptoms := Z.of_nat (length allowed_actions);
          executed_actions :=
            if not_dry dry_run then Z.of_nat (length execution_results) else 0;
          successful_actions :=
            if not_dry dry_run
            then Z.of_nat (length (List.filter success execution_results))
            else 0 |}.
End Heal.

End AutoHeal.

(** ** Security audit: [ansible_security_audit] *)

Module SecurityAuditor.
Import PyStr Executor.

Record SecurityAssessment := {
  score : Z;
  level : string;
  recommendations : list string
}.

Record AuditReport := {
  categories : list (string * list (string * string));
  security_assessment : option SecurityAssessment
}.

Definition string_in (x : string) (l : list string) : bool :=
  existsb (String.eqb x) l.

Definition default_categories : list string :=
  ["packages"; "permissions"; "network"; "config"].

Definition packages_security_cmd : string :=
  "apt list --upgradable 2>/dev/null | grep -E '(security|CVE)' | wc -l || yum check-update --security 2>/dev/null | grep -c 'needed for security' || echo '0'".
Definition packages_outdated_cmd : string :=
  "apt list --upgradable 2>/dev/null | wc -l || yum check-update 2>/dev/null | wc -l".
Definition suid_cmd : string :=
  "find /usr /bin /sbin -perm -4000 -o -perm -2000 2>/dev/null | wc -l".
Definition writable_cmd : string :=
  "find / -maxdepth 3 -perm -002 -type f 2>/dev/null | grep -v '/proc\|/sys\|/dev' | wc -l".
Definition open_ports_cmd : string :=
  "netstat -tuln | grep LISTEN | wc -l".
Definition services_cmd : string :=
  "systemctl list-units --type=service --state=running | grep -E '(telnet|ftp|rsh|rlogin)' | wc -l".
Definition ssh_config_cmd : string :=
  "grep -E '^PermitRootLogin|^PasswordAuthentication|^Protocol' /etc/ssh/sshd_config 2>/dev/null || echo 'SSH config not accessible'".
Definition password_policy_cmd : string :=
  "grep -E '^PASS_MAX_DAYS|^PASS_MIN_DAYS|^PASS_WARN_AGE' /etc/login.defs 2>/dev/null | wc -l".

Definition level_of (security_score : Z) : string :=
  if security_score <? 40 then "critical"
  else if security_score <? 70 then "warning" else "good".

(** The body of the scoring loop over [categories.items()]; the locals
    are [security_score] and [recommendations]. *)
Definition score_category (acc : Z * list string)
    (item : string * list (string * string)) : result (Z * list string) :=
  let '(security_score, recommendations) := acc in
  let '(category, results) := item in
  if String.eqb category "packages" then
    security_updates ← py_int (default "0" (dict_get "security_updates_available" results));
    if 0 <? security_updates then
      Ok (security_score - Z.min (security_updates * 5) 30,
          recommendations ++
          ["Apply " +:+ str_of_int security_updates +:+ " security updates immediately"])
    else Ok acc
  else if String.eqb category "permissions" then
    world_writable ← py_int (default "0" (dict_get "world_writable_files" results));
    if 0 <? world_writable then
      Ok (security_score - Z.min (world_writable * 2) 20,
          recommendations ++
          ["Fix " +:+ str_of_int world_writable +:+ " world-writable files"])
    else Ok acc
  else if String.eqb category "network" then
    insecure_services ← py_int (default "0" (dict_get "insecure_services" results));
    if 0 <? insecure_services then
      Ok (security_score - insecure_services * 15,
          recommendations ++ ["Disable insecure network services"])
    else Ok acc
  else Ok acc.

Fixpoint score_categories (items : list (string * list (string * string)))
    (acc : Z * list string) : result (Z * list string) :=
  match items with
  | [] => Ok acc
  | item :: items' => acc' ← score_category acc item; score_categories items' acc'
  end.

(** The block under [if generate_report:]. *)
Definition assess (categories : list (string * list (string * string)))
  : result SecurityAssessment :=
  '(security_score, recommendations) ← score_categories categories (100, []);
  Ok {| score := Z.max 0 security_score;
        level := level_of security_score;
        recommendations := recommendations |}.

(** The [categories] dict of an audit: each audited category holds the
    two stripped probe outputs, in the order the audit stores them. *)
Definition categories_of (packages permissions network config : option (string * string))
  : list (string * list (string * string)) :=
  match packages with
  | Some p => [("packages", [("security_updates_available", p.1);
                             ("total_updates_available", p.2)])]
  | None => []
  end ++
  match permissions with
  | Some p => [("permissions", [("suid_sgid_files", p.1);
                                ("world_writable_files", p.2)])]
  | None => []
  end ++
  match network with
  | Some p => [("network", [("open_ports", p.1); ("insecure_services", p.2)])]
  | None => []
  end ++
  match config with
  | Some p => [("config", [("ssh_config", p.1); ("password_policies", p.2)])]
  | None => []
  end.

(** The counter read from a category: the integer its stored text
    parses to, a count, or 0 when the category was not audited. *)
Definition counter_is (stored : option string) (n : Z) : Prop :=
  match stored with
  | Some text => py_int text = Ok n /\ 0 <= n
  | None => n = 0
  end.

Section Audit.
Context {World : Type}.
Variable _run_command : Request -> World -> (Z * string * string) * World.

(** One audited category: two probes, their stripped stdout stored
    under two keys. *)
Definition audit_category (host : string) (inv : option string)
    (selected : list string) (name cmd1 key1 cmd2 key2 : string)
    (cats : list (string * list (string * string)))
  : M World (list (string * list (string * string))) :=
  if string_in name selected then
    r1 ← ansible_task _run_command (shell host inv cmd1);
    r2 ← ansible_task _run_command (shell host inv cmd2);
    mret (dict_set name
            (dict_set key2 (strip (stdout r2)) [(key1, strip (stdout r1))])
            cats)
  else mret cats.

Definition ansible_security_audit (host : string)
    (inventory_paths : option (list string))
    (audit_categories : option (list string)) (generate_report : option bool)
  : M World AuditReport :=
  let inv := inventory_str inventory_paths in
  let selected :=
    match audit_categories with
    | Some (c :: cs) => c :: cs
    | _ => default_categories
    end in
  cats ← audit_category host inv selected "packages"
            packages_security_cmd "security_updates_available"
            packages_outdated_cmd "total_updates_available" [];
  cats ← audit_category host inv selected "permissions"
            suid_cmd "suid_sgid_files"
            writable_cmd "world_writable_files" cats;
  cats ← audit_category host inv selected "network"
            open_ports_cmd "open_ports"
            services_cmd "insecure_services" cats;
  cats ← audit_category host inv selected "config"
            ssh_config_cmd "ssh_config"
            password_policy_cmd "password_policies" cats;
  match generate_report with
  | Some true =>
      a ← lift (assess cats);
      mret {| categories := cats; security_assessment := Some a |}
  | _ => mret {| categories := cats; security_assessment := None |}
  end.
End Audit.

End SecurityAuditor.

(** ** Health monitoring: [ansible_health_monitor] *)

Module HealthMonitor.
Import PyStr Executor.

Record MonitoringSample := {
  timestamp : string;
  load_average : pyfloat;
  memory_percent : pyfloat;
  disk_percent : pyfloat
}.

(** The trend analysis is float arithmetic over the history and is not
    part of the model; the history decides how it is computed. *)
Record MonitorReport := {
  duration_seconds : Z;
  data_points : Z;
  metrics_history : list MonitoringSample
}.

Definition monitor_cmd : string :=
  "echo $(date '+%Y-%m-%d %H:%M:%S'),$(cat /proc/loadavg | awk '{print $1}'),$(free | grep Mem | awk '{print ($3/$2)*100}'),$(df / | tail -1 | awk '{print $5}' | sed 's/%//')".

(** [x or d] for an optional integer. *)
Definition or_default (x : option Z) (d : Z) : Z :=
  match x with
  | Some z => if z =? 0 then d else z
  | None => d
  end.

Section Monitor.
Context {World : Type}.
Variable _run_command : Request -> World -> (Z * string * string) * World.
(** [float(s)]: [None] stands for the [ValueError] it raises. *)
Variable py_float : string -> option pyfloat.

Definition float_of (s : string) : result pyfloat :=
  match py_float s with
  | Some f => Ok f
  | None => Raise ValueError
  end.

(** The unpacking of the four comma-separated fields and their
    conversion; nothing around it catches an exception. *)
Definition parse_sample (out : string) : result MonitoringSample :=
  match split "," (strip out) with
  | [timestamp; load_avg; memory_percent; disk_percent] =>
      l ← float_of load_avg;
      m ← float_of memory_percent;
      d ← float_of disk_percent;
      Ok {| timestamp := timestamp; load_average := l;
            memory_percent := m; disk_percent := d |}
  | _ => Raise ValueError
  end.

(** The body of the collection loop (the sleep between two samples is
    left out). *)
Definition collect (host : string) (inv : option string)
    (metrics_history : list MonitoringSample) (i : nat)
  : M World (list MonitoringSample) :=
  current_metrics ← ansible_task _run_command (shell host inv monitor_cmd);
  if ok current_metrics then
    sample ← lift (parse_sample (stdout current_metrics));
    mret (metrics_history ++ [sample])
  else mret metrics_history.

Definition ansible_health_monitor (host : string)
    (inventory_paths : option (list string))
    (monitoring_duration metrics_interval : option Z)
  : M World MonitorReport :=
  let inv := inventory_str inventory_paths in
  let duration := or_default monitoring_duration 300 in
  let interval := or_default metrics_interval 30 in
  let collection_points := duration / interval in
  metrics_history ←
    for_each (collect host inv) (seq 0 (Z.to_nat collection_points)) [];
  mret {| duration_seconds := duration;
          data_points := Z.of_nat (length metrics_history);
          metrics_history := metrics_history |}.
End Monitor.

End HealthMonitor.

(** ** Host diagnosis: [ansible_diagnose_host] *)

Module Diagnose.
Import PyStr Executor.

Record Diagnosis := {
  checks : list (string * list (string * value));
  health_score : option HealthScorer.HealthAssessment
}.

Definition string_in (x : string) (l : list string) : bool :=
  existsb (String.eqb x) l.

Definition default_checks : list string :=
  ["system"; "network"; "security"; "performance"].

Definition system_cmd : string :=
  "df -h / | tail -1 | awk '{print $5}' | sed 's/%//'; free | grep Mem | awk '{print ($3/$2)*100}'; top -bn1 | grep 'Cpu(s)' | awk '{print $2}' | sed 's/%us,//'".
Definition network_cmd : string :=
  "ping -c 3 8.8.8.8 > /dev/null 2>&1 && echo 'reachable' || echo 'unreachable'".
Definition security_cmd : string :=
  "last -n 5 | grep -v 'wtmp begins' | wc -l; ps aux | grep -v grep | grep -E '(ssh|telnet|ftp)' | wc -l".
Definition performance_cmd : string :=
  "uptime | awk '{print $(NF-2), $(NF-1), $NF}' | tr -d ','".

(** [all_metrics.update(metrics)]: later entries overwrite. *)
Definition update (all_metrics : gmap string value) (metrics : list (string * value))
  : gmap string value :=
  fold_left (fun m kv => <[kv.1 := kv.2]> m) metrics all_metrics.

(** The loop that merges every check without an ["error"] key. *)
Definition merge_checks (checks : list (string * list (string * value)))
  : gmap string value :=
  fold_left (fun all_metrics item =>
               match dict_get "error" item.2 with
               | None => update all_metrics item.2
               | Some _ => all_metrics
               end) checks ∅.

(** What a check may store: nothing under the keys [network_reachable]
    and [failed_services], and numbers under the three percentages. *)
Definition entry_ok (kv : string * value) : bool :=
  negb (String.eqb kv.1 "network_reachable")
  && negb (String.eqb kv.1 "failed_services")
  && (if string_in kv.1 ["cpu_percent"; "memory_percent"; "disk_usage_percent"]
      then HealthScorer.is_number kv.2 else true).

Definition checks_ok (checks : list (string * list (string * value))) : Prop :=
  Forall (fun item => forallb entry_ok item.2 = true) checks.

(** Every entry of a merged bag is one a check may store. *)
Definition bag_ok (m : gmap string value) : Prop :=
  forall k v, m !! k = Some v -> entry_ok (k, v) = true.

Section Host.
Context {World : Type}.
Variable _run_command : Request -> World -> (Z * string * string) * World.
(** [float(s)]: [None] stands for the [ValueError] it raises. *)
Variable py_float : string -> option pyfloat.

Definition float_value (s : string) : result value :=
  match py_float s with
  | Some f => Ok (VFloat f)
  | None => Raise ValueError
  end.

(** The [try] block that parses the three lines of the system probe. *)
Definition parse_system (output_lines : list string) : result (list (string * value)) :=
  disk_usage ← match output_lines with
               | l0 :: _ => float_value l0
               | [] => Ok (VInt 0)
               end;
  memory_usage ← match output_lines with
                 | _ :: l1 :: _ => float_value l1
                 | _ => Ok (VInt 0)
                 end;
  cpu_usage ← match output_lines with
              | _ :: _ :: l2 :: _ => float_value l2
              | _ => Ok (VInt 0)
              end;
  Ok [("disk_usage_percent", disk_usage);
      ("memory_percent", memory_usage);
      ("cpu_percent", cpu_usage)].

Definition system_metrics_of (system_result : CommandResult) : list (string * value) :=
  if ok system_result then
    match parse_system (split (ascii_of_nat 10) (strip (stdout system_result))) with
    | Ok system_metrics => system_metrics
    | Raise _ => [("error", VStr "Failed to parse system metrics")]
    end
  else [("error", VStr "Failed to gather system metrics")].

Definition network_metrics_of (network_result : CommandResult) : list (string * value) :=
  [("internet_reachable",
    VBool (if ok network_result
           then String.eqb (strip (stdout network_result)) "reachable"
           else false))].

Definition security_metrics_of (security_result : CommandResult) : list (string * value) :=
  let lines := split (ascii_of_nat 10) (strip (stdout security_result)) in
  [("recent_logins",
    VStr (if ok security_result then default "" (head lines) else "unknown"));
   ("network_services",
    VStr (match ok security_result, lines with
          | true, _ :: l1 :: _ => l1
          | _, _ => "unknown"
          end))].

Definition performance_metrics_of (perf_result : CommandResult) : list (string * value) :=
  [("load_average",
    VStr (if ok perf_result then strip (stdout perf_result) else "unknown"))].

(** One check category: a single probe whose result becomes the
    category's metrics. *)
Definition run_check (host : string) (inv : option string)
    (check_types : list string) (name cmd : string)
    (metrics_of : CommandResult -> list (string * value))
    (checks : list (string * list (string * value)))
  : M World (list (string * list (string * value))) :=
  if string_in name check_types then
    r ← ansible_task _run_command (shell host inv cmd);
    mret (dict_set name (metrics_of r) checks)
  else mret checks.

Definition ansible_diagnose_host (host : string)
    (inventory_paths : option (list string))
    (checks : option (list string)) (include_recommendations : option bool)
  : M World Diagnosis :=
  let inv := inventory_str inventory_paths in
  let check_types :=
    match checks with
    | Some (c :: cs) => c :: cs
    | _ => default_checks
    end in
  cs ← run_check host inv check_types "system" system_cmd system_metrics_of [];
  cs ← run_check host inv check_types "network" network_cmd network_metrics_of cs;
  cs ← run_check host inv check_types "security" security_cmd security_metrics_of cs;
  cs ← run_check host inv check_types "performance" performance_cmd
         performance_metrics_of cs;
  match include_recommendations with
  | Some true =>
      health_assessment ←
        lift (HealthScorer._calculate_health_score (merge_checks cs));
      mret {| checks := cs; health_score := Some health_assessment |}
  | _ => mret {| checks := cs; health_score := None |}
  end.
End Host.

End Diagnose.

(** ** Play recaps: [_parse_play_recap] and [_sum_changed] *)

Module PlayRecap.
Import PyStr Executor.

(** [s.split(sep, 1)] for a one-character separator: one piece when the
    separator does not occur, otherwise what precedes its first
    occurrence and what follows it. [cur] is the piece being read. *)
Fixpoint split_once_from (sep : ascii) (s cur : string) : list string :=
  match s with
  | EmptyString => [cur]
  | String c s' =>
      if Ascii.eqb c sep then [cur; s'] else split_once_from sep s' (snoc cur c)
  end.

Definition split_once (sep : ascii) (s : string) : list string :=
  split_once_from sep s "".

(** [s.split()]: the maximal runs of characters that are not whitespace. *)
Fixpoint split_whitespace_from (s cur : string) : list string :=
  match s with
  | EmptyString => if String.eqb cur "" then [] else [cur]
  | String c s' =>
      if is_space c then
        (if String.eqb cur "" then [] else [cur]) ++ split_whitespace_from s' ""
      else split_whitespace_from s' (snoc cur c)
  end.

Definition split_whitespace (s : string) : list string :=
  split_whitespace_from s "".

Definition stat_keys : list string :=
  ["ok"; "changed"; "unreachable"; "failed"; "skipped"; "rescued"; "ignored"].

(** [{k: 0 for k in [...]}]. *)
Definition zero_stats : list (string * Z) := map (fun k => (k, 0)) stat_keys.

Definition has_key {V} (k : string) (d : list (string * V)) : bool :=
  match dict_get k d with Some _ => true | None => false end.

(** The body of the loop over the segments of a host line. *)
Definition read_segment (stats : list (string * Z)) (seg : string) : list (string * Z) :=
  if contains "=" seg then
    match split_once "=" seg with
    | [k; v] =>
        if has_key k stats then
          match py_int v with
          | Ok n => dict_set k n stats
          | Raise _ => stats
          end
        else stats
    | _ => stats
    end
  else stats.

(** The body of the loop over the lines; the locals are [totals] and
    [started]. *)
Definition read_line (acc : list (string * list (string * Z)) * bool) (line : string)
  : list (string * list (string * Z)) * bool :=
  let '(totals, started) := acc in
  if String.prefix "PLAY RECAP" (strip line) then (totals, true)
  else if started then
    if String.eqb (strip line) "" then acc
    else
      match split_once ":" line with
      | [host_part; rest] =>
          let host := strip host_part in
          let stats := fold_left read_segment (split_whitespace rest) zero_stats in
          (dict_set host stats totals, started)
      | _ => acc
      end
  else acc.

Definition _parse_play_recap (stdout : string) : list (string * list (string * Z)) :=
  (fold_left read_line (splitlines stdout) ([], false)).1.

(** [sum(v.get("changed", 0) for v in totals.values())]. *)
Definition _sum_changed (totals : list (string * list (string * Z))) : Z :=
  fold_right Z.add 0 (map (fun hv => default 0 (dict_get "changed" hv.2)) totals).

End PlayRecap.

(** ** Playbook runs: [ansible_playbook] and [ansible_test_idempotence] *)

Module Playbook.
Import PyStr PlayRecap.

(** [shlex.quote]: a string made of safe characters is left alone,
    anything else is wrapped in single quotes. *)
Definition is_safe (c : ascii) : bool :=
  is_word c || existsb (Ascii.eqb c) (list_ascii_of_string "@%+=:,./-").

Fixpoint all_safe (s : string) : bool :=
  match s with
  | EmptyString => true
  | String c s' => is_safe c && all_safe s'
  end.

Definition double_quote : ascii := ascii_of_nat 34.

(** Every single quote is replaced by a closing quote, a double-quoted
    single quote and an opening quote. *)
Fixpoint escape_quotes (s : string) : string :=
  match s with
  | EmptyString => EmptyString
  | String c s' =>
      if Ascii.eqb c "'" then
        "'" +:+ String double_quote "'" +:+ String double_quote "'" +:+ escape_quotes s'
      else String c (escape_quotes s')
  end.

Definition shlex_quote (s : string) : string :=
  if String.eqb s "" then "''"
  else if all_safe s then s
  else "'" +:+ escape_quotes s +:+ "'".

Definition shlex_join (cmd : list string) : string :=
  join " " (map shlex_quote cmd).

(** ["v" * n]. *)
Definition repeat_v (n : Z) : string :=
  string_of_list_ascii (repeat "v"%char (Z.to_nat n)).

(** The [-v] flag: present for any non-zero verbosity, with one to four
    letters. *)
Definition verbosity_flag (verbose : option Z) : list string :=
  match verbose with
  | Some v => if v =? 0 then [] else ["-" +:+ repeat_v (Z.max 1 (Z.min v 4))]
  | None => []
  end.

Definition nonempty (s : option string) : option string :=
  match s with
  | Some t => if String.eqb t "" then None else Some t
  | None => None
  end.

Definition flag_with (flag : string) (value : option string) : list string :=
  match value with
  | Some v => [flag; v]
  | None => []
  end.

Definition joined (l : option (list string)) : option string :=
  match l with
  | Some (x :: xs) => Some (join "," (x :: xs))
  | _ => None
  end.

Definition switch (flag : string) (on : option bool) : list string :=
  match on with
  | Some true => [flag]
  | _ => []
  end.

Record PlaybookResult := {
  ok : bool;
  rc : Z;
  stdout : string;
  stderr : string;
  command : string
}.

Record PlaybookArgs := {
  playbook_path : string;
  inventory : option string;
  extra_vars : option (list (string * value));
  tags : option (list string);
  skip_tags : option (list string);
  limit : option string;
  check : option bool;
  diff : option bool;
  verbose : option Z
}.

Record IdempotenceReport := {
  idempotent : bool;
  first_rc : Z;
  second_rc : Z;
  first_recap : list (string * list (string * Z));
  second_recap : list (string * list (string * Z));
  changed_total_second : Z;
  first_command : string;
  second_command : string
}.

Section Run.
Context {World : Type}.
(** [_run_command] on an argument vector. *)
Variable _run_command : list string -> World -> (Z * string * string) * World.
(** [json.dumps] of the extra variables. *)
Variable json_dumps : list (string * value) -> string.

Definition playbook_cmd (a : PlaybookArgs) : list string :=
  ["ansible-playbook"; playbook_path a]
  ++ flag_with "-i" (nonempty (inventory a))
  ++ flag_with "--extra-vars"
       match extra_vars a with
       | Some (kv :: kvs) => Some (json_dumps (kv :: kvs))
       | _ => None
       end
  ++ flag_with "--tags" (joined (tags a))
  ++ flag_with "--skip-tags" (joined (skip_tags a))
  ++ flag_with "--limit" (nonempty (limit a))
  ++ switch "--check" (check a)
  ++ switch "--diff" (diff a)
  ++ verbosity_flag (verbose a).

Definition ansible_playbook (a : PlaybookArgs) (w : World) : PlaybookResult * World :=
  let cmd := playbook_cmd a in
  let '((code, out, err), w') := _run_command cmd w in
  ({| ok := code =? 0; rc := code; stdout := out; stderr := err;
      command := shlex_join cmd |}, w').

(** The idempotence test passes the path, the joined inventory, the
    extra variables and the verbosity on, and nothing else. *)
Definition ansible_test_idempotence (playbook_path : string)
    (inventory_paths : option (list string))
    (extra_vars : option (list (string * value))) (verbose : option Z)
    (w : World) : IdempotenceReport * World :=
  let a := {| playbook_path := playbook_path;
              inventory := Executor.inventory_str inventory_paths;
              extra_vars := extra_vars;
              tags := None; skip_tags := None; limit := None;
              check := None; diff := None;
              verbose := verbose |} in
  let '(first, w1) := ansible_playbook a w in
  let first_recap := _parse_play_recap (stdout first) in
  let '(second, w2) := ansible_playbook a w1 in
  let second_recap := _parse_play_recap (stdout second) in
  let changed_total := _sum_changed second_recap in
  ({| idempotent := ok first && ok second && (changed_total =? 0);
      first_rc := rc first;
      second_rc := rc second;
      first_recap := first_recap;
      second_recap := second_recap;
      changed_total_second := changed_total;
      first_command := command first;
      second_command := command second |}, w2).
End Run.

End Playbook.

(** ** Log fetching: [ansible_fetch_logs] *)

Module FetchLogs.
Import PyStr Executor.






Section Fetch.
Context {World : Type}.
Variable _run_command : Request -> World -> (Z * string * string) * World.


End Fetch.

End FetchLogs.

(** ** Performance baseline: [ansible_performance_baseline] *)

Module PerformanceBaseline.
Import PyStr Executor.

Record Benchmarks := {
  cpu : string;
  memory : string;
  disk_write : string;
  network_latency : string;
  system_load : string
}.

Record PerformanceAssessment := {
  score : Z;
  level : string;
  issues : list string
}.


Definition network_cmd : string :=
  "ping -c 10 $(ip route | grep default | awk '{print $3}' | head -1) | grep 'avg' | awk -F'/' '{print $5}'".

(** [x < k] for a float [x] and an integer literal [k]. *)
Definition float_lt (f : pyfloat) (k : Z) : bool :=
  match f with
  | Finite q => negb (Qle_bool (inject_Z k) q)
  | NegInf => true
  | PosInf => false
  | NaN => false
  end.

Definition level_of (performance_score : Z) : string :=
  if 85 <? performance_score then "excellent"
  else if 70 <? performance_score then "good" else "poor".

Section Baseline.
Context {World : Type}.
Variable _run_command : Request -> World -> (Z * string * string) * World.
(** [float(s)]: [None] stands for the [ValueError] it raises. *)
Variable py_float : string -> option pyfloat.
(** [_generate_snapshot_id()], which reads the clock. *)
Variable snapshot_id : string.

Definition float_of (s : string) : result pyfloat :=
  match py_float s with
  | Some f => Ok f
  | None => Raise ValueError
  end.

(** The load rule inside the [try]; the locals are the score and the
    issues. *)
Definition load_rule (system_load : string) (acc : Z * list string)
  : result (Z * list string) :=
  if String.eqb system_load "" then Ok acc
  else
    load_val ← float_of system_load;
    if float_gt load_val 2 then Ok (acc.1 - 20, acc.2 ++ ["High system load detected"])
    else Ok acc.

(** The memory rule inside the [try]. *)
Definition memory_rule (memory : string) (acc : Z * list string)
  : result (Z * list string) :=
  if contains "MB/s" memory then
    match PlayRecap.split_whitespace memory with
    | first :: _ =>
        memory_speed ← float_of first;
        if float_lt memory_speed 100
        then Ok (acc.1 - 15, acc.2 ++ ["Low memory bandwidth"])
        else Ok acc
    | [] => Raise IndexError
    end
  else Ok acc.

(** The [try] block with its handler. What a rule did before a later
    conversion raised is kept: the locals are updated in place. *)
Definition assess (b : Benchmarks) : PerformanceAssessment :=
  let acc0 := (100, []) in
  let '(performance_score, issues) :=
    match load_rule (system_load b) acc0 with
    | Ok acc1 =>
        match memory_rule (memory b) acc1 with
        | Ok acc2 => acc2
        | Raise _ => (acc1.1, acc1.2 ++ ["Could not parse some benchmark results"])
        end
    | Raise _ => (acc0.1, acc0.2 ++ ["Could not parse some benchmark results"])
    end in
  {| score := performance_score;
     level := level_of performance_score;
     issues := issues |}.

Definition probe (host : string) (inv : option string) (cmd : string) : M World string :=
  r ← ansible_task _run_command (shell host inv cmd);
  mret (strip (stdout r)).

End Baseline.

End PerformanceBaseline.

(** ** Concrete inputs used to exercise the statements *)

Module Fixtures.
Import Executor.

Definition sample_bag : gmap string value :=
  <["cpu_percent" := VFloat (Finite (93 # 1))]>
    (<["failed_services" := VList ["nginx"; "sshd"]]>
       (<["network_reachable" := VBool false]> ∅)).

(** A world in which every probe exits with [code] and prints [out]. *)
Definition always (code : Z) (out : string)
  : Request -> unit -> (Z * string * string) * unit :=
  fun _ w => ((code, out, ""), w).

Definition start : Env unit := {| world := tt; issued := [] |}.

Definition newline : string := String (ascii_of_nat 10) "".

(** Two error lines five seconds apart. *)
Definition disk_full_log : string :=
  "2024-01-01 10:00:00 ERROR disk full" +:+ newline +:+
  "2024-01-01 10:00:05 ERROR disk full" +:+ newline.

(** An error line with a timestamp followed by one without. *)
Definition partly_stamped_log : string :=
  "2024-01-01 10:00:00 ERROR disk full" +:+ newline +:+
  "ERROR disk full" +:+ newline.

End Fixtures.

(** ** Notions used to state the properties *)

Section LogAnalysisBoundsNotions.
Import PyStr LogPatternAnalyzer.

Definition total (counts : list (string * Z)) : Z :=
  fold_right Z.add 0 (map snd counts).
End LogAnalysisBoundsNotions.

Section HealthIssuesNotions.
Import HealthScorer.

(** The locals after any prefix of the rules: as many recommendations as
    issues, and a score of 100 exactly while no issue was recorded. *)
Definition tidy (st : locals) : Prop :=
  length (l_issues st) = length (l_recommendations st)
  /\ ((l_score st = 100 /\ l_issues st = [])
      \/ (l_score st < 100 /\ l_issues st <> [])).
End HealthIssuesNotions.

Section AutoHealPlanNotions.
Import Executor AutoHeal.

(** The two probes an executed action issues, in order. *)
Definition probes_of (host : string) (inv : option string) (a : HealingAction)
  : list Request :=
  [shell host inv (safety_check a); shell host inv (command a)].

End AutoHealPlanNotions.

Section AutoHealEdgeNotions.
Import Executor AutoHeal.

(** The symptoms the if/elif chain recognises. *)
Definition catalogue_symptoms : list string :=
  ["high_cpu"; "high_memory"; "disk_full"; "service_failed"].
End AutoHealEdgeNotions.

Section CorrelationNotions.
Import Timestamp LogHunter.


End CorrelationNotions.

Section HuntNotions.
Import PyStr Executor LogHunter.


End HuntNotions.

Section SecurityBoundsNotions.
Import PyStr Executor SecurityAuditor.



End SecurityBoundsNotions.

Section MonitorNotions.
Import Executor HealthMonitor.

(** The number of samples a call sets out to collect. *)
Definition collection_points (monitoring_duration metrics_interval : option Z) : nat :=
  Z.to_nat (or_default monitoring_duration 300 / or_default metrics_interval 30).
End MonitorNotions.

Section DiagnoseMoreNotions.
Import Executor Diagnose.

Definition check_types_of (checks : option (list string)) : list string :=
  match checks with
  | Some (c :: cs) => c :: cs
  | _ => default_checks
  end.


End DiagnoseMoreNotions.

Section QuietChecksNotions.
Import Executor Diagnose.

(** An entry the scorer does not read, and a check that gives the scorer
    nothing: one marked with an error, or one made of such entries. *)
Definition unread_entry (kv : string * value) : bool :=
  negb (string_in kv.1 ["cpu_percent"; "memory_percent"; "disk_usage_percent";
                        "failed_services"; "network_reachable"]).

Definition quiet_check (item : string * list (string * value)) : bool :=
  match dict_get "error" item.2 with
  | Some _ => true
  | None => forallb unread_entry item.2
  end.

Definition unread_bag (m : gmap string value) : Prop :=
  forall k v, m !! k = Some v -> unread_entry (k, v) = true.
End QuietChecksNotions.

Section RecapNotions.
Import PyStr Executor PlayRecap.

Definition full_stats (hv : string * list (string * Z)) : Prop :=
  map fst hv.2 = stat_keys.
End RecapNotions.

Section FetchNotions.
Import Executor FetchLogs.

End FetchNotions.

(** * Properties *)

(** ** Health scorer *)

Section HealthScorerFacts.
Import HealthScorer.

Lemma py_gt_number v k : is_number v = true -> exists b, py_gt v k = Ok b.
Proof. destruct v; simpl; intros H; try discriminate; eauto. Qed.

Lemma field_ok_default check metrics key d :
  field_ok check metrics key = true -> check d = true ->
  check (default d (metrics !! key)) = true.
Proof. unfold field_ok. destruct (metrics !! key); simpl; auto. Qed.

Lemma cpu_health_total metrics st :
  field_ok is_number metrics "cpu_percent" = true ->
  exists st', cpu_health metrics st = Ok st'.
Proof.
  intros H. apply field_ok_default with (d := VInt 0) in H; [|reflexivity].
  unfold cpu_health.
  destruct (py_gt_number _ 90 H) as [b1 ->], (py_gt_number _ 75 H) as [b2 ->].
  simpl. destruct b1, b2; eauto.
Qed.

Lemma memory_health_total metrics st :
  field_ok is_number metrics "memory_percent" = true ->
  exists st', memory_health metrics st = Ok st'.
Proof.
  intros H. apply field_ok_default with (d := VInt 0) in H; [|reflexivity].
  unfold memory_health.
  destruct (py_gt_number _ 95 H) as [b1 ->], (py_gt_number _ 85 H) as [b2 ->].
  simpl. destruct b1, b2; eauto.
Qed.

Lemma disk_health_total metrics st :
  field_ok is_number metrics "disk_usage_percent" = true ->
  exists st', disk_health metrics st = Ok st'.
Proof.
  intros H. apply field_ok_default with (d := VInt 0) in H; [|reflexivity].
  unfold disk_health.
  destruct (py_gt_number _ 95 H) as [b1 ->], (py_gt_number _ 85 H) as [b2 ->].
  simpl. destruct b1, b2; eauto.
Qed.

Lemma service_health_total metrics st :
  field_ok is_list metrics "failed_services" = true ->
  exists st', service_health metrics st = Ok st'.
Proof.
  intros H. apply field_ok_default with (d := VList []) in H; [|reflexivity].
  unfold service_health.
  destruct (default _ _); try discriminate.
  destruct (truthy _); simpl; eauto.
Qed.

Lemma cpu_health_le metrics st st' :
  cpu_health metrics st = Ok st' -> l_score st' <= l_score st.
Proof.
  unfold cpu_health.
  destruct (py_gt _ 90) as [[]|]; simpl; try discriminate;
    [intros [= <-]; simpl; lia|].
  destruct (py_gt _ 75) as [[]|]; simpl; try discriminate;
    intros [= <-]; simpl; lia.
Qed.

Lemma memory_health_le metrics st st' :
  memory_health metrics st = Ok st' -> l_score st' <= l_score st.
Proof.
  unfold memory_health.
  destruct (py_gt _ 95) as [[]|]; simpl; try discriminate;
    [intros [= <-]; simpl; lia|].
  destruct (py_gt _ 85) as [[]|]; simpl; try discriminate;
    intros [= <-]; simpl; lia.
Qed.

Lemma disk_health_le metrics st st' :
  disk_health metrics st = Ok st' -> l_score st' <= l_score st.
Proof.
  unfold disk_health.
  destruct (py_gt _ 95) as [[]|]; simpl; try discriminate;
    [intros [= <-]; simpl; lia|].
  destruct (py_gt _ 85) as [[]|]; simpl; try discriminate;
    intros [= <-]; simpl; lia.
Qed.

Lemma service_health_le metrics st st' :
  service_health metrics st = Ok st' -> l_score st' <= l_score st.
Proof.
  unfold service_health.
  destruct (truthy _); [|intros [= <-]; lia].
  destruct (py_elements _); simpl; try discriminate.
  intros [= <-]; simpl; lia.
Qed.

Lemma network_connectivity_le metrics st :
  l_score (network_connectivity metrics st) <= l_score st.
Proof.
  unfold network_connectivity. destruct (negb _); simpl; lia.
Qed.

(** What every returned assessment is made of: a raw score of at most
    100, reported clamped, and the level computed from the raw score. *)
Lemma assessment_shape metrics a :
  _calculate_health_score metrics = Ok a ->
  exists raw, raw <= 100 /\ score a = Z.max 0 raw /\ level a = level_of raw.
Proof.
  unfold _calculate_health_score.
  destruct (cpu_health _ _) as [s1|] eqn:E1; simpl; try discriminate.
  destruct (memory_health _ _) as [s2|] eqn:E2; simpl; try discriminate.
  destruct (disk_health _ _) as [s3|] eqn:E3; simpl; try discriminate.
  destruct (service_health _ _) as [s4|] eqn:E4; simpl; try discriminate.
  intros [= <-]; simpl.
  exists (l_score (network_connectivity metrics s4)). split; [|done].
  pose proof (cpu_health_le _ _ _ E1). pose proof (memory_health_le _ _ _ E2).
  pose proof (disk_health_le _ _ _ E3). pose proof (service_health_le _ _ _ E4).
  pose proof (network_connectivity_le metrics s4). simpl in *. lia.
Qed.

Lemma well_typed_total metrics :
  well_typed metrics = true -> exists a, _calculate_health_score metrics = Ok a.
Proof.
  unfold well_typed. rewrite !andb_true_iff. intros [[[Hc Hm] Hd] Hs].
  unfold _calculate_health_score.
  destruct (cpu_health_total metrics
              {| l_score := 100; l_issues := []; l_recommendations := [] |} Hc)
    as [s1 ->]; simpl.
  destruct (memory_health_total metrics s1 Hm) as [s2 ->]; simpl.
  destruct (disk_health_total metrics s2 Hd) as [s3 ->]; simpl.
  destruct (service_health_total metrics s3 Hs) as [s4 ->]; simpl.
  eauto.
Qed.

Lemma level_of_thresholds raw :
  (level_of raw = "critical" <-> Z.max 0 raw < 50)
  /\ (level_of raw = "warning" <-> 50 <= Z.max 0 raw < 80)
  /\ (level_of raw = "healthy" <-> 80 <= Z.max 0 raw).
Proof.
  unfold level_of.
  destruct (raw <? 50) eqn:H50; [|destruct (raw <? 80) eqn:H80];
    repeat split; intros; try discriminate; try reflexivity; lia.
Qed.
End HealthScorerFacts.

(** C1: for every metrics bag typed as the data model types it, the
    health scorer returns an assessment whose level is ["critical"]
    exactly when the reported score is below 50, ["warning"] exactly when
    it is at least 50 and below 80, and ["healthy"] exactly when it is at
    least 80. *)
Theorem health_level_is_threshold_of_score (metrics : gmap string value) :
  HealthScorer.well_typed metrics = true ->
  exists a, HealthScorer._calculate_health_score metrics = Ok a
    /\ (HealthScorer.level a = "critical" <-> HealthScorer.score a < 50)
    /\ (HealthScorer.level a = "warning" <-> 50 <= HealthScorer.score a < 80)
    /\ (HealthScorer.level a = "healthy" <-> 80 <= HealthScorer.score a).
Proof.
  intros Hwt. destruct (well_typed_total metrics Hwt) as [a Ha].
  exists a. split; [exact Ha|].
  destruct (assessment_shape metrics a Ha) as (raw & _ & -> & ->).
  apply level_of_thresholds.
Qed.

Lemma health_level_is_threshold_of_score_witness :
  exists a, HealthScorer._calculate_health_score Fixtures.sample_bag = Ok a
    /\ (HealthScorer.level a = "critical" <-> HealthScorer.score a < 50)
    /\ (HealthScorer.level a = "warning" <-> 50 <= HealthScorer.score a < 80)
    /\ (HealthScorer.level a = "healthy" <-> 80 <= HealthScorer.score a).
Proof.
  apply (health_level_is_threshold_of_score Fixtures.sample_bag). vm_compute. reflexivity.
Defined.

(** C2: the health scorer is a function of the contents of the bag: two
    bags with the same entries get the same assessment, and the score of
    that assessment lies in [0, 100]. *)
Theorem health_score_pure_and_bounded (m1 m2 : gmap string value) :
  HealthScorer.well_typed m1 = true ->
  (forall k : string, m1 !! k = m2 !! k) ->
  exists a, HealthScorer._calculate_health_score m1 = Ok a
    /\ HealthScorer._calculate_health_score m2 = Ok a
    /\ 0 <= HealthScorer.score a <= 100.
Proof.
  intros Hwt Heq. apply map_eq in Heq. subst m2.
  destruct (well_typed_total m1 Hwt) as [a Ha].
  exists a. repeat split; try exact Ha;
    destruct (assessment_shape m1 a Ha) as (raw & Hraw & -> & _); lia.
Qed.

Lemma health_score_pure_and_bounded_witness :
  exists a, HealthScorer._calculate_health_score Fixtures.sample_bag = Ok a
    /\ HealthScorer._calculate_health_score
         (<["failed_services" := VList ["nginx"; "sshd"]]>
            (<["network_reachable" := VBool false]>
               (<["cpu_percent" := VFloat (Finite (93 # 1))]> ∅))) = Ok a
    /\ 0 <= HealthScorer.score a <= 100.
Proof.
  apply (health_score_pure_and_bounded Fixtures.sample_bag).
  - vm_compute. reflexivity.
  - intros k. unfold Fixtures.sample_bag.
    rewrite !lookup_insert. repeat case_decide; subst; try reflexivity; congruence.
Defined.

(** ** Auto-heal planner *)

Section AutoHealFacts.
Import Executor AutoHeal.
Context {World : Type}.
Variable run : Request -> World -> (Z * string * string) * World.

Lemma ansible_task_returns req (e : Env World) :
  exists r e', ansible_task run req e = (Ok r, e').
Proof.
  unfold ansible_task. destruct (run req (world e)) as [[[c o] er] w]. eauto.
Qed.

Lemma execute_action_returns host inv acc a (e : Env World) :
  exists r e', execute_action run host inv acc a e = (Ok r, e').
Proof.
  unfold execute_action, mbind, M_bind, mret, M_ret.
  destruct (ansible_task_returns (shell host inv (safety_check a)) e)
    as (r1 & e1 & ->).
  destruct (ansible_task_returns (shell host inv (command a)) e1)
    as (r2 & e2 & ->).
  eauto.
Qed.

(** The execution loop never raises. *)
Lemma execution_loop_returns host inv actions acc (e : Env World) :
  exists rs e', for_each (execute_action run host inv) actions acc e = (Ok rs, e').
Proof.
  revert acc e. induction actions as [|a actions IH]; intros acc e; simpl.
  - unfold mret, M_ret. eauto.
  - unfold mbind, M_bind.
    destruct (execute_action_returns host inv acc a e) as (r & e1 & ->).
    apply IH.
Qed.

(** Every call returns a report, and the proposed actions are the
    catalogue entries of the symptoms that pass the impact filter. *)
Lemma auto_heal_returns host symptoms inv max_impact dry_run (e : Env World) :
  exists r e',
    ansible_auto_heal run host symptoms inv max_impact dry_run e = (Ok r, e')
    /\ proposed_actions r
       = allowed_actions_of (healing_actions_for symptoms) max_impact.
Proof.
  unfold ansible_auto_heal, mbind, M_bind, mret, M_ret.
  destruct (not_dry dry_run).
  - destruct (execution_loop_returns host (inventory_str inv)
                (allowed_actions_of (healing_actions_for symptoms) max_impact) [] e)
      as (rs & e1 & ->).
    eauto.
  - eauto.
Qed.

Lemma allowed_actions_monotone actions m1 m2 a :
  max_impact_level m1 <= max_impact_level m2 ->
  In a (allowed_actions_of actions m1) -> In a (allowed_actions_of actions m2).
Proof.
  unfold allowed_actions_of. rewrite !filter_In.
  intros Hle [Hin Hok]. split; [exact Hin|].
  apply Z.leb_le. apply Z.leb_le in Hok. lia.
Qed.

Lemma max_impact_level_ceiling c :
  max_impact_level (Some (ceiling_name c)) = ceiling_rank c.
Proof. destruct c; reflexivity. Qed.
End AutoHealFacts.

(** C3: planning for the single symptom ["high_cpu"] in dry-run mode
    proposes nothing and blocks one action under the ceiling ["low"];
    under ["medium"] it proposes one action and blocks none, and there
    are no execution results. In both calls the world and the list of
    issued commands come back unchanged: no command was run. *)
Theorem high_cpu_plan_in_dry_run {World : Type}
    (run : Executor.Request -> World -> (Z * string * string) * World)
    (host : string) (inv : option (list string)) (e : Executor.Env World) :
  (exists r,
      AutoHeal.ansible_auto_heal run host ["high_cpu"] inv
        (Some "low") (Some true) e = (Ok r, e)
      /\ length (AutoHeal.proposed_actions r) = 0%nat
      /\ length (AutoHeal.blocked_actions r) = 1%nat
      /\ AutoHeal.execution_results r = None)
  /\ (exists r,
      AutoHeal.ansible_auto_heal run host ["high_cpu"] inv
        (Some "medium") (Some true) e = (Ok r, e)
      /\ length (AutoHeal.proposed_actions r) = 1%nat
      /\ length (AutoHeal.blocked_actions r) = 0%nat
      /\ AutoHeal.execution_results r = None).
Proof.
  split; eexists; (split; [reflexivity|]); repeat split.
Qed.

(** C4: for fixed symptoms and dry-run flag, every action proposed under
    a ceiling is also proposed under any ceiling that is at least as high
    in the order low < medium < high. *)
Theorem raising_ceiling_keeps_proposed {World : Type}
    (run : Executor.Request -> World -> (Z * string * string) * World)
    (host : string) (symptoms : list string) (inv : option (list string))
    (dry_run : option bool) (c1 c2 : AutoHeal.Ceiling)
    (e1 e2 : Executor.Env World) :
  AutoHeal.ceiling_rank c1 <= AutoHeal.ceiling_rank c2 ->
  exists r1 e1' r2 e2',
    AutoHeal.ansible_auto_heal run host symptoms inv
      (Some (AutoHeal.ceiling_name c1)) dry_run e1 = (Ok r1, e1')
    /\ AutoHeal.ansible_auto_heal run host symptoms inv
         (Some (AutoHeal.ceiling_name c2)) dry_run e2 = (Ok r2, e2')
    /\ forall a, In a (AutoHeal.proposed_actions r1) ->
                 In a (AutoHeal.proposed_actions r2).
Proof.
  intros Hle.
  destruct (auto_heal_returns run host symptoms inv
              (Some (AutoHeal.ceiling_name c1)) dry_run e1) as (r1 & e1' & H1 & P1).
  destruct (auto_heal_returns run host symptoms inv
              (Some (AutoHeal.ceiling_name c2)) dry_run e2) as (r2 & e2' & H2 & P2).
  exists r1, e1', r2, e2'. repeat split; [exact H1|exact H2|].
  intros a. rewrite P1, P2. apply allowed_actions_monotone.
  rewrite !max_impact_level_ceiling. exact Hle.
Qed.

Lemma raising_ceiling_keeps_proposed_witness :
  exists r1 e1' r2 e2',
    AutoHeal.ansible_auto_heal (Fixtures.always 0 "") "web"
      ["high_memory"; "high_cpu"] None (Some "low") (Some false) Fixtures.start
      = (Ok r1, e1')
    /\ AutoHeal.ansible_auto_heal (Fixtures.always 0 "") "web"
         ["high_memory"; "high_cpu"] None (Some "medium") (Some false) Fixtures.start
       = (Ok r2, e2')
    /\ forall a, In a (AutoHeal.proposed_actions r1) ->
                 In a (AutoHeal.proposed_actions r2).
Proof.
  apply (raising_ceiling_keeps_proposed (Fixtures.always 0 "") "web"
           ["high_memory"; "high_cpu"] None (Some false)
           AutoHeal.Low AutoHeal.Medium Fixtures.start Fixtures.start).
  simpl. lia.
Defined.

(** ** Security audit *)

Section SecurityFacts.
Import PyStr SecurityAuditor.

Lemma security_level_thresholds raw :
  (level_of raw = "critical" <-> Z.max 0 raw < 40)
  /\ (level_of raw = "warning" <-> 40 <= Z.max 0 raw < 70)
  /\ (level_of raw = "good" <-> 70 <= Z.max 0 raw).
Proof.
  unfold level_of.
  destruct (raw <? 40) eqn:H40; [|destruct (raw <? 70) eqn:H70];
    repeat split; intros; try discriminate; try reflexivity; lia.
Qed.

Lemma score_categories_app items1 items2 acc :
  score_categories (items1 ++ items2) acc
  = score_categories items1 acc ≫= score_categories items2.
Proof.
  revert acc. induction items1 as [|item items1 IH]; intros acc; simpl.
  - reflexivity.
  - destruct (score_category acc item); simpl; [apply IH|reflexivity].
Qed.

(** One audited count [n >= 0] deducts [d], which is 0 when [n] is. *)
Ltac count_case n :=
  destruct (Z.ltb_spec 0 n); simpl;
  eexists; apply f_equal; apply (f_equal2 pair); try reflexivity; lia.

Lemma packages_deduction packages n score recs :
  counter_is (fst <$> packages) n ->
  exists recs',
    score_categories
      match packages with
      | Some p => [("packages", [("security_updates_available", p.1);
                                 ("total_updates_available", p.2)])]
      | None => []
      end (score, recs)
    = Ok (score - Z.min (n * 5) 30, recs').
Proof.
  destruct packages as [[p1 p2]|]; simpl.
  - intros [-> Hn]. simpl. count_case n.
  - intros ->. eexists. apply f_equal, (f_equal2 pair); [lia|reflexivity].
Qed.

Lemma permissions_deduction permissions n score recs :
  counter_is (snd <$> permissions) n ->
  exists recs',
    score_categories
      match permissions with
      | Some p => [("permissions", [("suid_sgid_files", p.1);
                                    ("world_writable_files", p.2)])]
      | None => []
      end (score, recs)
    = Ok (score - Z.min (n * 2) 20, recs').
Proof.
  destruct permissions as [[p1 p2]|]; simpl.
  - intros [-> Hn]. simpl. count_case n.
  - intros ->. eexists. apply f_equal, (f_equal2 pair); [lia|reflexivity].
Qed.

Lemma network_deduction network n score recs :
  counter_is (snd <$> network) n ->
  exists recs',
    score_categories
      match network with
      | Some p => [("network", [("open_ports", p.1); ("insecure_services", p.2)])]
      | None => []
      end (score, recs)
    = Ok (score - n * 15, recs').
Proof.
  destruct network as [[p1 p2]|]; simpl.
  - intros [-> Hn]. simpl. count_case n.
  - intros ->. eexists. apply f_equal, (f_equal2 pair); [lia|reflexivity].
Qed.

Lemma config_no_deduction config acc :
  score_categories
    match config with
    | Some p => [("config", [("ssh_config", p.1); ("password_policies", p.2)])]
    | None => []
    end acc
  = Ok acc.
Proof. destruct config as [[c1 c2]|], acc; reflexivity. Qed.
End SecurityFacts.

(** C6: given the counters parsed from the audited categories (counts,
    0 for a category that was not audited), the security score is 100
    minus [min(5 * updates, 30)], minus [min(2 * writable, 20)], minus
    [15 * insecure] without a cap, reported clamped at 0; the level is
    ["critical"] exactly below 40, ["warning"] exactly from 40 and below
    70, and ["good"] exactly from 70. *)
Theorem security_score_formula
    (packages permissions network config : option (string * string))
    (security_updates world_writable insecure_services : Z) :
  SecurityAuditor.counter_is (fst <$> packages) security_updates ->
  SecurityAuditor.counter_is (snd <$> permissions) world_writable ->
  SecurityAuditor.counter_is (snd <$> network) insecure_services ->
  exists a,
    SecurityAuditor.assess
      (SecurityAuditor.categories_of packages permissions network config) = Ok a
    /\ SecurityAuditor.score a
       = Z.max 0 (100 - Z.min (security_updates * 5) 30
                      - Z.min (world_writable * 2) 20
                      - insecure_services * 15)
    /\ (SecurityAuditor.level a = "critical" <-> SecurityAuditor.score a < 40)
    /\ (SecurityAuditor.level a = "warning" <-> 40 <= SecurityAuditor.score a < 70)
    /\ (SecurityAuditor.level a = "good" <-> 70 <= SecurityAuditor.score a).
Proof.
  intros Hp Hw Hn.
  unfold SecurityAuditor.assess, SecurityAuditor.categories_of.
  rewrite score_categories_app.
  destruct (packages_deduction packages _ 100 [] Hp) as [r1 ->].
  unfold mbind at 2, result_bind. rewrite score_categories_app.
  destruct (permissions_deduction permissions _
              (100 - Z.min (security_updates * 5) 30) r1 Hw) as [r2 ->].
  unfold mbind at 2, result_bind. rewrite score_categories_app.
  destruct (network_deduction network _
              (100 - Z.min (security_updates * 5) 30 - Z.min (world_writable * 2) 20)
              r2 Hn) as [r3 ->].
  unfold mbind at 2, result_bind.
  rewrite config_no_deduction. simpl.
  eexists. split; [reflexivity|]. simpl. split; [reflexivity|].
  apply security_level_thresholds.
Qed.

Lemma security_score_formula_witness :
  exists a,
    SecurityAuditor.assess
      (SecurityAuditor.categories_of (Some ("7", "12")) (Some ("40", "3"))
                                     (Some ("9", "2")) None) = Ok a
    /\ SecurityAuditor.score a
       = Z.max 0 (100 - Z.min (7 * 5) 30 - Z.min (3 * 2) 20 - 2 * 15)
    /\ (SecurityAuditor.level a = "critical" <-> SecurityAuditor.score a < 40)
    /\ (SecurityAuditor.level a = "warning" <-> 40 <= SecurityAuditor.score a < 70)
    /\ (SecurityAuditor.level a = "good" <-> 70 <= SecurityAuditor.score a).
Proof.
  apply (security_score_formula (Some ("7", "12")) (Some ("40", "3"))
           (Some ("9", "2")) None 7 3 2);
    simpl; (split; [reflexivity|lia]).
Defined.

(** C7: the audit does not treat an unparsable count as 0. When the
    security-updates probe prints text that [int] rejects (nothing at
    all, or a message), a full audit with a report raises [ValueError]
    and returns no structure. *)
Theorem security_audit_raises_on_unparsable_count {World : Type}
    (run : Executor.Request -> World -> (Z * string * string) * World)
    (host : string) (inv : option (list string)) (e : Executor.Env World) :
  PyStr.py_int
    (PyStr.strip
       (Executor.printed run
          (Executor.shell host (Executor.inventory_str inv)
             SecurityAuditor.packages_security_cmd)
          (Executor.world e)))
  = Raise ValueError ->
  (SecurityAuditor.ansible_security_audit run host inv None (Some true) e).1
  = Raise ValueError.
Proof.
  unfold Executor.printed, SecurityAuditor.ansible_security_audit,
    SecurityAuditor.audit_category, Executor.ansible_task.
  simpl. unfold mbind, Executor.M_bind, mret, Executor.M_ret, Executor.lift.
  simpl.
  repeat match goal with
         | |- context [run ?r ?w] =>
             destruct (run r w) as [[[? ?] ?] ?]; simpl
         end.
  intros H. unfold SecurityAuditor.assess. simpl. rewrite H. reflexivity.
Qed.

Lemma security_audit_raises_on_unparsable_count_witness :
  (SecurityAuditor.ansible_security_audit (Fixtures.always 0 "") "web" None None
     (Some true) Fixtures.start).1
  = Raise ValueError.
Proof.
  apply (security_audit_raises_on_unparsable_count
           (Fixtures.always 0 "") "web" None Fixtures.start).
  reflexivity.
Defined.

(** ** Health monitor *)

(** C8: a malformed sample is not dropped. When the first probe succeeds
    and prints a line that does not split into four comma-separated
    fields, the monitoring call raises [ValueError]: no later sample is
    collected and no structure is returned. *)
Theorem monitor_aborts_on_malformed_sample {World : Type}
    (run : Executor.Request -> World -> (Z * string * string) * World)
    (py_float : string -> option pyfloat)
    (host : string) (inv : option (list string))
    (monitoring_duration metrics_interval : option Z)
    (e : Executor.Env World) :
  let probe := Executor.shell host (Executor.inventory_str inv)
                 HealthMonitor.monitor_cmd in
  1 <= HealthMonitor.or_default monitoring_duration 300
       / HealthMonitor.or_default metrics_interval 30 ->
  Executor.exit_code run probe (Executor.world e) = 0 ->
  length (PyStr.split "," (PyStr.strip (Executor.printed run probe (Executor.world e))))
    <> 4%nat ->
  exists e',
    HealthMonitor.ansible_health_monitor run py_float host inv
      monitoring_duration metrics_interval e = (Raise ValueError, e')
    /\ length (Executor.issued e') = S (length (Executor.issued e)).
Proof.
  intros probe Hpoints Hcode Hfields.
  unfold HealthMonitor.ansible_health_monitor.
  destruct (Z.to_nat _) as [|n] eqn:Hn; [lia|].
  unfold mbind, Executor.M_bind. simpl.
  unfold mbind, Executor.M_bind, HealthMonitor.collect at 1, Executor.ansible_task.
  unfold mbind, Executor.M_bind. fold probe.
  unfold Executor.exit_code, Executor.printed in Hcode, Hfields.
  destruct (run probe (Executor.world e)) as [[[code out] err] w].
  subst code. simpl.
  unfold Executor.lift, HealthMonitor.parse_sample.
  destruct (PyStr.split "," (PyStr.strip out)) as [|f1 [|f2 [|f3 [|f4 [|f5 fs]]]]];
    simpl in Hfields; try congruence;
    (eexists; split; [reflexivity|]; simpl; rewrite length_app; simpl; lia).
Qed.

Lemma monitor_aborts_on_malformed_sample_witness :
  exists e',
    HealthMonitor.ansible_health_monitor
      (Fixtures.always 0 "2024-01-01 10:00:00,0.52,41.7") (fun _ => Some NaN)
      "web" None (Some 60) None Fixtures.start = (Raise ValueError, e')
    /\ length (Executor.issued e') = S (length (Executor.issued Fixtures.start)).
Proof.
  apply (monitor_aborts_on_malformed_sample
           (Fixtures.always 0 "2024-01-01 10:00:00,0.52,41.7") (fun _ => Some NaN)
           "web" None (Some 60) None Fixtures.start).
  - vm_compute. discriminate.
  - reflexivity.
  - vm_compute. discriminate.
Defined.

(** ** Log analysis and correlation *)

(** C9: a match without a parsable timestamp is not set aside. As soon
    as two or more matches are handed to the correlation and one of them
    has no timestamp, sorting them raises [TypeError]: the presence of
    that match aborts the call. *)
Theorem correlation_raises_on_unstamped_match
    (all_matches : list LogHunter.LogMatch) (correlation_window : Z) :
  (1 < length all_matches)%nat ->
  (exists m, In m all_matches /\ LogHunter.timestamp m = None) ->
  LogHunter.correlate all_matches correlation_window = Raise TypeError.
Proof.
  intros Hlen (m & Hin & Hnone).
  unfold LogHunter.correlate, LogHunter.sorted_by_timestamp.
  assert ((1 <? Z.of_nat (length all_matches)) = true) as ->
    by (apply Z.ltb_lt; lia).
  assert (forallb LogHunter.has_timestamp all_matches = false) as ->.
  { apply not_true_is_false. intros Hall. rewrite forallb_forall in Hall.
    specialize (Hall m Hin). unfold LogHunter.has_timestamp in Hall.
    rewrite Hnone in Hall. discriminate. }
  reflexivity.
Qed.

Lemma correlation_raises_on_unstamped_match_witness :
  LogHunter.correlate
    (LogHunter.matches_of 2026 "/var/log/syslog" "ERROR"
       ["2024-01-01 10:00:00 ERROR disk full"; "ERROR disk full"]) 300
  = Raise TypeError.
Proof.
  apply (correlation_raises_on_unstamped_match
           (LogHunter.matches_of 2026 "/var/log/syslog" "ERROR"
              ["2024-01-01 10:00:00 ERROR disk full"; "ERROR disk full"]) 300).
  - simpl. lia.
  - exists {| LogHunter.log_file := "/var/log/syslog"; LogHunter.pattern := "ERROR";
              LogHunter.line := "ERROR disk full"; LogHunter.timestamp := None |}.
    split; [|reflexivity]. right. left. vm_compute. reflexivity.
Defined.

(** The whole hunt on a log whose second error line carries no
    timestamp: the call raises, so the raw results are not returned
    either. *)
Example hunt_aborts_on_partly_stamped_log (current_year : Z) :
  (LogHunter.ansible_log_hunter (Fixtures.always 0 Fixtures.partly_stamped_log)
     current_year "web" ["ERROR"] (Some ["/var/log/app.log"]) None None 300
     Fixtures.start).1
  = Raise TypeError.
Proof. vm_compute. reflexivity. Qed.

(** C5: on the two-line log text the analysis does not count the two
    [ERROR] lines. Each line is lower-cased before the upper-case pattern
    is searched without [re.IGNORECASE], so no category is counted and no
    recent error is kept. The correlation half does hold: a hunt that
    finds the two lines yields exactly one cluster, of strength 2, with
    one related event. *)
Theorem error_lines_are_not_categorised (current_year : Z) :
  let analysis := LogPatternAnalyzer._analyze_log_patterns Fixtures.disk_full_log in
  LogPatternAnalyzer.total_lines_analyzed analysis = 2
  /\ Executor.dict_get "error" (LogPatternAnalyzer.pattern_counts analysis) = None
  /\ LogPatternAnalyzer.pattern_counts analysis = []
  /\ LogPatternAnalyzer.recent_errors analysis = []
  /\ exists report c,
       (LogHunter.ansible_log_hunter (Fixtures.always 0 Fixtures.disk_full_log)
          current_year "web" ["ERROR|CRITICAL|FATAL"] (Some ["/var/log/app.log"])
          None None 10 Fixtures.start).1 = Ok report
       /\ LogHunter.total_matches report = 2
       /\ LogHunter.correlations report = [c]
       /\ LogHunter.correlation_strength c = 2
       /\ length (LogHunter.related_events c) = 1%nat.
Proof.
  repeat split; try (vm_compute; reflexivity).
  eexists. eexists. split; [vm_compute; reflexivity|].
  repeat split.
Qed.

(** ** Host diagnosis *)

Section DiagnoseFacts.
Import Executor Diagnose.
Context {World : Type}.
Variable run : Request -> World -> (Z * string * string) * World.
Variable py_float : string -> option pyfloat.

Lemma float_value_number s v :
  float_value py_float s = Ok v -> HealthScorer.is_number v = true.
Proof.
  unfold float_value. destruct (py_float s); intros [= <-]; reflexivity.
Qed.

Lemma system_metrics_ok r :
  forallb entry_ok (system_metrics_of py_float r) = true.
Proof.
  unfold system_metrics_of. destruct (ok r); [|reflexivity].
  destruct (parse_system _ _) as [ms|] eqn:E; [|reflexivity].
  unfold parse_system in E.
  destruct (PyStr.split _ _) as [|l0 [|l1 [|l2 ls]]]; simpl in E;
    repeat match type of E with
           | context [float_value py_float ?s] =>
               let F := fresh "F" in
               destruct (float_value py_float s) eqn:F; simpl in E;
               [apply float_value_number in F|discriminate]
           end;
    injection E as <-; cbv -[HealthScorer.is_number];
    repeat match goal with H : HealthScorer.is_number _ = true |- _ =>
                             rewrite H; clear H end;
    reflexivity.
Qed.

Lemma network_metrics_ok r : forallb entry_ok (network_metrics_of r) = true.
Proof. reflexivity. Qed.

Lemma security_metrics_ok r : forallb entry_ok (security_metrics_of r) = true.
Proof. reflexivity. Qed.

Lemma performance_metrics_ok r : forallb entry_ok (performance_metrics_of r) = true.
Proof. reflexivity. Qed.

Lemma dict_set_checks_ok name metrics cs :
  forallb entry_ok metrics = true -> checks_ok cs ->
  checks_ok (dict_set name metrics cs).
Proof.
  intros Hm. unfold checks_ok. induction 1 as [|[k v] cs Hk Hcs IH]; simpl.
  - constructor; [exact Hm|constructor].
  - destruct (String.eqb k name); constructor; auto.
Qed.

(** A check never raises and stores only admissible entries. *)
Lemma run_check_returns host inv check_types name cmd metrics_of cs (e : Env World) :
  (forall r, forallb entry_ok (metrics_of r) = true) -> checks_ok cs ->
  exists cs' e',
    run_check run host inv check_types name cmd metrics_of cs e = (Ok cs', e')
    /\ checks_ok cs'.
Proof.
  intros Hm Hcs. unfold run_check.
  destruct (string_in name check_types).
  - unfold mbind, M_bind, ansible_task.
    destruct (run _ _) as [[[c o] er] w]. simpl.
    eexists _, _. split; [reflexivity|]. apply dict_set_checks_ok; auto.
  - eexists _, _. split; [reflexivity|exact Hcs].
Qed.

Lemma update_bag_ok metrics m :
  forallb entry_ok metrics = true -> bag_ok m -> bag_ok (update m metrics).
Proof.
  unfold update. revert m.
  induction metrics as [|[k v] metrics IH]; intros m Hm Hbag; simpl; [exact Hbag|].
  simpl in Hm. apply andb_true_iff in Hm as [Hkv Hm].
  apply IH; [exact Hm|].
  intros k' v'. rewrite lookup_insert. case_decide; subst; simpl.
  - intros [= <-]. exact Hkv.
  - apply Hbag.
Qed.

Lemma merge_checks_bag_ok cs : checks_ok cs -> bag_ok (merge_checks cs).
Proof.
  unfold merge_checks.
  assert (bag_ok (∅ : gmap string value)) as H0
    by (intros k v; rewrite lookup_empty; discriminate).
  revert H0. generalize (∅ : gmap string value) as m.
  induction cs as [|[name metrics] cs IH]; intros m Hm Hcs; simpl; [exact Hm|].
  inversion Hcs as [|? ? Hitem Hrest]; subst. simpl in Hitem.
  apply IH; [|exact Hrest].
  destruct (dict_get "error" metrics); [exact Hm|].
  apply update_bag_ok; assumption.
Qed.

Lemma bag_ok_no_key m k :
  bag_ok m -> (forall v, entry_ok (k, v) = false) -> m !! k = None.
Proof.
  intros Hbag Hk. destruct (m !! k) as [v|] eqn:E; [|reflexivity].
  apply Hbag in E. rewrite Hk in E. discriminate.
Qed.

Lemma bag_ok_percentage m k :
  bag_ok m ->
  string_in k ["cpu_percent"; "memory_percent"; "disk_usage_percent"] = true ->
  HealthScorer.field_ok HealthScorer.is_number m k = true.
Proof.
  intros Hbag Hk. unfold HealthScorer.field_ok.
  destruct (m !! k) as [v|] eqn:E; [|reflexivity].
  apply Hbag in E. unfold entry_ok in E. cbn [fst snd] in E. rewrite Hk in E.
  apply andb_true_iff in E as [_ E]. exact E.
Qed.

Lemma bag_ok_well_typed m : bag_ok m -> HealthScorer.well_typed m = true.
Proof.
  intros Hbag. unfold HealthScorer.well_typed.
  rewrite !(bag_ok_percentage m _ Hbag) by reflexivity.
  unfold HealthScorer.field_ok.
  rewrite (bag_ok_no_key m "failed_services" Hbag) by reflexivity.
  reflexivity.
Qed.

(** Without the two keys, the assessment carries no connectivity issue. *)
Lemma no_connectivity_issue m a :
  m !! "network_reachable" = None -> m !! "failed_services" = None ->
  HealthScorer._calculate_health_score m = Ok a ->
  ~ In "Network connectivity issues" (HealthScorer.issues a).
Proof.
  intros Hn Hf.
  unfold HealthScorer._calculate_health_score, HealthScorer.cpu_health,
    HealthScorer.memory_health, HealthScorer.disk_health,
    HealthScorer.service_health, HealthScorer.network_connectivity.
  rewrite Hn, Hf. simpl.
  repeat match goal with
         | |- context [py_gt ?v ?k] =>
             destruct (py_gt v k) as [[]|]; simpl; try discriminate
         end;
    intros [= <-]; simpl; intuition discriminate.
Qed.

Lemma network_rule_idle m st :
  m !! "network_reachable" = None -> HealthScorer.network_connectivity m st = st.
Proof.
  intros Hn. unfold HealthScorer.network_connectivity. rewrite Hn. reflexivity.
Qed.
End DiagnoseFacts.

(** C10: whatever the probes answer and whichever checks are selected,
    a diagnosis with recommendations returns, the bag given to the
    scorer has no ["network_reachable"] entry (the network check stores
    ["internet_reachable"]), and so the connectivity rule leaves the
    scorer's locals as they are: the health score carries neither the
    deduction of 20 nor its issue. *)
Theorem diagnosis_never_deducts_for_connectivity {World : Type}
    (run : Executor.Request -> World -> (Z * string * string) * World)
    (py_float : string -> option pyfloat)
    (host : string) (inv : option (list string)) (checks : option (list string))
    (e : Executor.Env World) :
  exists d e' a,
    Diagnose.ansible_diagnose_host run py_float host inv checks (Some true) e
    = (Ok d, e')
    /\ Diagnose.health_score d = Some a
    /\ HealthScorer._calculate_health_score (Diagnose.merge_checks (Diagnose.checks d))
       = Ok a
    /\ Diagnose.merge_checks (Diagnose.checks d) !! "network_reachable" = None
    /\ (forall st,
          HealthScorer.network_connectivity
            (Diagnose.merge_checks (Diagnose.checks d)) st = st)
    /\ ~ In "Network connectivity issues" (HealthScorer.issues a).
Proof.
  unfold Diagnose.ansible_diagnose_host.
  set (inv' := Executor.inventory_str inv).
  set (types := match checks with Some (c :: cs) => c :: cs | _ => _ end).
  unfold mbind, Executor.M_bind.
  destruct (run_check_returns run host inv' types "system" Diagnose.system_cmd
              (Diagnose.system_metrics_of py_float) [] e
              (system_metrics_ok py_float) (List.Forall_nil _))
    as (cs1 & e1 & -> & H1).
  destruct (run_check_returns run host inv' types "network" Diagnose.network_cmd
              Diagnose.network_metrics_of cs1 e1 network_metrics_ok H1)
    as (cs2 & e2 & -> & H2).
  destruct (run_check_returns run host inv' types "security" Diagnose.security_cmd
              Diagnose.security_metrics_of cs2 e2 security_metrics_ok H2)
    as (cs3 & e3 & -> & H3).
  destruct (run_check_returns run host inv' types "performance"
              Diagnose.performance_cmd Diagnose.performance_metrics_of cs3 e3
              performance_metrics_ok H3)
    as (cs4 & e4 & -> & H4).
  pose proof (merge_checks_bag_ok cs4 H4) as Hbag.
  pose proof (bag_ok_no_key _ "network_reachable" Hbag (fun _ => eq_refl)) as Hn.
  pose proof (bag_ok_no_key _ "failed_services" Hbag (fun _ => eq_refl)) as Hf.
  destruct (well_typed_total _ (bag_ok_well_typed _ Hbag)) as [a Ha].
  unfold Executor.lift. rewrite Ha.
  exists {| Diagnose.checks := cs4; Diagnose.health_score := Some a |}, e4, a.
  simpl. repeat split; try assumption.
  - intros st. apply network_rule_idle, Hn.
  - apply (no_connectivity_issue _ a Hn Hf Ha).
Qed.

(** A diagnosis whose reachability probe prints [unreachable] still
    scores 100. *)
Example unreachable_host_scores_100 :
  exists d e',
    Diagnose.ansible_diagnose_host (Fixtures.always 0 "unreachable") (fun _ => None)
      "web" None (Some ["network"]) (Some true) Fixtures.start = (Ok d, e')
    /\ Diagnose.checks d = [("network", [("internet_reachable", VBool false)])]
    /\ HealthScorer.score <$> Diagnose.health_score d = Some 100.
Proof. eexists _, _. split; [vm_compute; reflexivity|]. split; reflexivity. Qed.

(** ** Log pattern analysis, for every log text *)

Section LogAnalysisFacts.
Import PyStr LogPatternAnalyzer Executor.

Lemma lower_char_not_upper c : is_upper (lower_char c) = false.
Proof.
  destruct c as [b0 b1 b2 b3 b4 b5 b6 b7].
  destruct b0, b1, b2, b3, b4, b5, b6, b7; reflexivity.
Qed.

(** A literal that starts with an upper-case letter occurs nowhere in a
    lower-cased line. *)
Lemma contains_upper_in_lower u rest s :
  is_upper u = true -> contains (String u rest) (lower s) = false.
Proof.
  intros Hu. induction s as [|c s IH]; simpl.
  - reflexivity.
  - rewrite IH, orb_false_r.
    destruct (ascii_dec u (lower_char c)) as [->|]; [|reflexivity].
    rewrite lower_char_not_upper in Hu. discriminate.
Qed.

Lemma dict_get_increment_other k c d :
  String.eqb c k = false -> dict_get k (increment c d) = dict_get k d.
Proof.
  intros Hck. induction d as [|[k' n] d IH]; simpl.
  - rewrite Hck. reflexivity.
  - destruct (String.eqb k' c) eqn:E; simpl.
    + apply String.eqb_eq in E. subst k'. rewrite Hck. reflexivity.
    + destruct (String.eqb k' k); [reflexivity|exact IH].
Qed.

Lemma scan_line_keeps_uncounted k acc line :
  k = "error" \/ k = "warning" ->
  dict_get k (scan_line acc line).1 = dict_get k acc.1.
Proof.
  intros Hk. unfold scan_line, error_patterns. destruct acc as [counts recent].
  cbn [fold_left]. unfold scan_pattern at 7. unfold re_search_alternatives at 1.
  cbn [existsb]. rewrite !contains_upper_in_lower by reflexivity. cbn [orb].
  unfold scan_pattern at 6. unfold re_search_alternatives at 1.
  cbn [existsb]. rewrite !contains_upper_in_lower by reflexivity. cbn [orb].
  unfold scan_pattern.
  repeat match goal with
         | |- context [re_search_alternatives ?p ?l] =>
             destruct (re_search_alternatives p l)
         end;
    cbn [fst snd];
    rewrite ?dict_get_increment_other by (destruct Hk; subst; reflexivity);
    reflexivity.
Qed.

Lemma scan_lines_keep_uncounted k lines acc :
  k = "error" \/ k = "warning" ->
  dict_get k (fold_left scan_line lines acc).1 = dict_get k acc.1.
Proof.
  intros Hk. revert acc. induction lines as [|line lines IH]; intros acc; simpl.
  - reflexivity.
  - rewrite IH. apply scan_line_keeps_uncounted, Hk.
Qed.
End LogAnalysisFacts.

(** X1: whatever the log text, the categories ["error"] and ["warning"]
    are never counted: their upper-case patterns are searched in the
    lower-cased line. *)
Theorem error_and_warning_never_counted (logs : string) :
  let analysis := LogPatternAnalyzer._analyze_log_patterns logs in
  Executor.dict_get "error" (LogPatternAnalyzer.pattern_counts analysis) = None
  /\ Executor.dict_get "warning" (LogPatternAnalyzer.pattern_counts analysis) = None.
Proof.
  unfold LogPatternAnalyzer._analyze_log_patterns.
  pose proof (scan_lines_keep_uncounted "error"
                (PyStr.last_n 1000 (PyStr.splitlines logs)) ([], []) (or_introl eq_refl)) as He.
  pose proof (scan_lines_keep_uncounted "warning"
                (PyStr.last_n 1000 (PyStr.splitlines logs)) ([], []) (or_intror eq_refl)) as Hw.
  destruct (fold_left _ _ _) as [counts recent]. simpl in *. auto.
Qed.

Section LogAnalysisBounds.
Import PyStr LogPatternAnalyzer.

Lemma last_n_length {A} n (l : list A) : (length (last_n n l) <= n)%nat.
Proof. unfold last_n. rewrite length_drop. lia. Qed.

Lemma last_n_length_le {A} n (l : list A) : (length (last_n n l) <= length l)%nat.
Proof. unfold last_n. rewrite length_drop. lia. Qed.

Lemma total_increment c counts : total (increment c counts) = total counts + 1.
Proof.
  unfold total. induction counts as [|[k n] counts IH]; simpl.
  - reflexivity.
  - destruct (String.eqb k c); simpl; lia.
Qed.

(** One table row adds at most one match, and a recent error it keeps is
    the stripped line. *)
Lemma scan_pattern_step line acc row :
  let acc' := scan_pattern line acc row in
  total acc.1 <= total acc'.1 <= total acc.1 + 1
  /\ (acc'.2 = acc.2 \/ acc'.2 = acc.2 ++ [strip line]).
Proof.
  destruct acc as [counts recent], row as [pattern category].
  unfold scan_pattern. cbv zeta.
  destruct (re_search_alternatives _ _); cbn [fst snd].
  - rewrite total_increment. split; [lia|].
    destruct (string_in _ _); auto.
  - split; [lia|auto].
Qed.

(** The rows of ["error"] and ["warning"] leave the locals as they are. *)
Lemma error_row_idle line acc :
  scan_pattern line acc (["ERROR"; "CRITICAL"; "FATAL"], "error") = acc.
Proof.
  destruct acc as [counts recent]. unfold scan_pattern, re_search_alternatives.
  cbn [existsb]. rewrite !contains_upper_in_lower by reflexivity. reflexivity.
Qed.

Lemma warning_row_idle line acc :
  scan_pattern line acc (["WARNING"; "WARN"], "warning") = acc.
Proof.
  destruct acc as [counts recent]. unfold scan_pattern, re_search_alternatives.
  cbn [existsb]. rewrite !contains_upper_in_lower by reflexivity. reflexivity.
Qed.

Lemma scan_rows_total line rows acc :
  total acc.1 <= total (fold_left (scan_pattern line) rows acc).1
  <= total acc.1 + Z.of_nat (length rows).
Proof.
  revert acc. induction rows as [|row rows IH]; intros acc; simpl.
  - lia.
  - pose proof (IH (scan_pattern line acc row)).
    destruct (scan_pattern_step line acc row) as [? _]. lia.
Qed.

Lemma scan_line_total acc line :
  total acc.1 <= total (scan_line acc line).1 <= total acc.1 + 5.
Proof.
  unfold scan_line, error_patterns. cbn [fold_left].
  rewrite error_row_idle, warning_row_idle.
  apply (scan_rows_total line
           [ (["failed"; "failure"; "exception"], "failure");
             (["timeout"; "timed out"], "timeout");
             (["connection refused"; "connection reset"], "connection");
             (["out of memory"; "oom"], "memory");
             (["permission denied"; "access denied"], "permission") ] acc).
Qed.

Lemma scan_lines_total lines acc :
  total acc.1 <= total (fold_left scan_line lines acc).1
  <= total acc.1 + 5 * Z.of_nat (length lines).
Proof.
  revert acc. induction lines as [|line lines IH]; intros acc; simpl.
  - lia.
  - pose proof (IH (scan_line acc line)). pose proof (scan_line_total acc line). lia.
Qed.

Lemma scan_line_recent (P : string -> Prop) acc line :
  P (strip line) -> Forall P acc.2 -> Forall P (scan_line acc line).2.
Proof.
  intros Hline. unfold scan_line. generalize error_patterns as rows.
  intros rows. revert acc. induction rows as [|row rows IH]; intros acc Hacc; simpl.
  - exact Hacc.
  - apply IH. destruct (scan_pattern_step line acc row) as [_ [-> | ->]].
    + exact Hacc.
    + apply Forall_app. split; [exact Hacc|]. constructor; [exact Hline|constructor].
Qed.

Lemma scan_lines_recent (P : string -> Prop) lines acc :
  Forall (fun line => P (strip line)) lines -> Forall P acc.2 ->
  Forall P (fold_left scan_line lines acc).2.
Proof.
  revert acc. induction lines as [|line lines IH]; intros acc Hlines Hacc; simpl.
  - exact Hacc.
  - inversion Hlines; subst. apply IH; [assumption|].
    apply scan_line_recent; assumption.
Qed.
End LogAnalysisBounds.

(** X2: for every log text at most 1000 lines are considered, at most 10
    recent errors are kept, the divisor of the error rate is at least 1,
    and the number of counted matches is between 0 and five per
    considered line (the error rate never exceeds 500 percent). *)
Theorem log_analysis_bounds (logs : string) :
  let analysis := LogPatternAnalyzer._analyze_log_patterns logs in
  0 <= LogPatternAnalyzer.total_lines_analyzed analysis <= 1000
  /\ (length (LogPatternAnalyzer.recent_errors analysis) <= 10)%nat
  /\ 1 <= LogPatternAnalyzer.error_rate_considered analysis <= 1000
  /\ 0 <= LogPatternAnalyzer.error_rate_matched analysis
     <= 5 * LogPatternAnalyzer.error_rate_considered analysis.
Proof.
  unfold LogPatternAnalyzer._analyze_log_patterns.
  pose proof (scan_lines_total (PyStr.last_n 1000 (PyStr.splitlines logs)) ([], []))
    as Htotal.
  pose proof (last_n_length 1000 (PyStr.splitlines logs)) as Hlast.
  destruct (fold_left _ _ _) as [counts recent]. simpl in *.
  pose proof (last_n_length 10 recent). unfold total in Htotal. simpl in Htotal.
  repeat split; lia.
Qed.

(** X3: every recent error the analysis returns is the stripped text of
    one of the last 1000 lines of the log. *)
Theorem recent_errors_are_stripped_lines (logs e : string) :
  In e (LogPatternAnalyzer.recent_errors (LogPatternAnalyzer._analyze_log_patterns logs)) ->
  exists line,
    In line (PyStr.last_n 1000 (PyStr.splitlines logs)) /\ e = PyStr.strip line.
Proof.
  unfold LogPatternAnalyzer._analyze_log_patterns.
  set (lines := PyStr.last_n 1000 (PyStr.splitlines logs)).
  pose proof (scan_lines_recent
                (fun e => exists line, In line lines /\ e = PyStr.strip line)
                lines ([], [])) as H.
  destruct (fold_left _ _ _) as [counts recent]. simpl in *.
  intros Hin.
  assert (Forall (fun e => exists line, In line lines /\ e = PyStr.strip line) recent)
    as Hall.
  { apply H; [|constructor]. apply List.Forall_forall. intros line Hl. eauto. }
  apply (Forall_drop _ (length recent - 10)) in Hall.
  rewrite List.Forall_forall in Hall. apply Hall. exact Hin.
Qed.

Lemma recent_errors_are_stripped_lines_witness :
  exists line,
    In line (PyStr.last_n 1000 (PyStr.splitlines "  job failed  "))
    /\ "job failed" = PyStr.strip line.
Proof.
  apply (recent_errors_are_stripped_lines "  job failed  " "job failed").
  vm_compute. left. reflexivity.
Defined.

(** ** Health scorer: issues and score move together *)

Section HealthIssuesFacts.
Import HealthScorer.

Lemma tidy_deduct d issue rec st :
  0 < d -> issue <> [] -> length issue = length rec ->
  tidy st -> tidy (deduct d issue rec st).
Proof.
  intros Hd Hi Hlen [Hl Hs]. unfold tidy, deduct. simpl.
  rewrite !length_app. split; [lia|]. right. split.
  - destruct Hs as [[-> _]|[? _]]; lia.
  - destruct (l_issues st); [destruct issue; [congruence|discriminate]|discriminate].
Qed.

Ltac threshold_rule :=
  repeat match goal with
         | |- context [py_gt ?v ?k] =>
             destruct (py_gt v k) as [[]|]; simpl; try discriminate
         end;
  intros [= <-]; try assumption;
  apply tidy_deduct; try assumption; try lia; try discriminate; reflexivity.

Lemma cpu_health_tidy metrics st st' :
  cpu_health metrics st = Ok st' -> tidy st -> tidy st'.
Proof. unfold cpu_health. intros H Ht. revert H. threshold_rule. Qed.

Lemma memory_health_tidy metrics st st' :
  memory_health metrics st = Ok st' -> tidy st -> tidy st'.
Proof. unfold memory_health. intros H Ht. revert H. threshold_rule. Qed.

Lemma disk_health_tidy metrics st st' :
  disk_health metrics st = Ok st' -> tidy st -> tidy st'.
Proof. unfold disk_health. intros H Ht. revert H. threshold_rule. Qed.

Lemma truthy_elements v svcs :
  truthy v = true -> py_elements v = Ok svcs -> svcs <> [].
Proof.
  destruct v as [| | | |s|l]; simpl; try discriminate.
  - destruct s; [discriminate|]. intros _ [= <-]. discriminate.
  - destruct l; [discriminate|]. intros _ [= <-]. discriminate.
Qed.

Lemma service_health_tidy metrics st st' :
  service_health metrics st = Ok st' -> tidy st -> tidy st'.
Proof.
  unfold service_health. intros H Ht. revert H.
  destruct (truthy _) eqn:Htruthy; [|intros [= <-]; exact Ht].
  destruct (py_elements _) as [svcs|] eqn:Hsvcs; simpl; [|discriminate].
  pose proof (truthy_elements _ _ Htruthy Hsvcs) as Hne.
  intros [= <-]. apply tidy_deduct; try assumption.
  - destruct svcs; [congruence|]. simpl length. lia.
  - destruct svcs; [congruence|discriminate].
  - rewrite !length_map. reflexivity.
Qed.

Lemma network_connectivity_tidy metrics st :
  tidy st -> tidy (network_connectivity metrics st).
Proof.
  intros Ht. unfold network_connectivity. destruct (negb _); [|exact Ht].
  apply tidy_deduct; try assumption; try lia; try discriminate; reflexivity.
Qed.
End HealthIssuesFacts.

(** X4: every assessment the scorer returns has as many recommendations
    as issues, and reports a score of 100 exactly when it lists no
    issue. *)
Theorem health_issues_match_score (metrics : gmap string value)
    (a : HealthScorer.HealthAssessment) :
  HealthScorer._calculate_health_score metrics = Ok a ->
  length (HealthScorer.issues a) = length (HealthScorer.recommendations a)
  /\ (HealthScorer.score a = 100 <-> HealthScorer.issues a = []).
Proof.
  unfold HealthScorer._calculate_health_score.
  destruct (HealthScorer.cpu_health _ _) as [s1|] eqn:E1; simpl; try discriminate.
  destruct (HealthScorer.memory_health _ _) as [s2|] eqn:E2; simpl; try discriminate.
  destruct (HealthScorer.disk_health _ _) as [s3|] eqn:E3; simpl; try discriminate.
  destruct (HealthScorer.service_health _ _) as [s4|] eqn:E4; simpl; try discriminate.
  intros [= <-]. simpl.
  assert (tidy (HealthScorer.network_connectivity metrics s4)) as [Hlen Hs].
  { apply network_connectivity_tidy.
    apply (service_health_tidy _ _ _ E4), (disk_health_tidy _ _ _ E3),
      (memory_health_tidy _ _ _ E2), (cpu_health_tidy _ _ _ E1).
    split; [reflexivity|]. left. split; reflexivity. }
  split; [exact Hlen|].
  destruct Hs as [[-> ->]|[Hlt Hne]]; split; intros; try reflexivity; try lia; congruence.
Qed.

Lemma health_issues_match_score_witness :
  exists a,
    HealthScorer._calculate_health_score Fixtures.sample_bag = Ok a
    /\ length (HealthScorer.issues a) = length (HealthScorer.recommendations a)
    /\ (HealthScorer.score a = 100 <-> HealthScorer.issues a = []).
Proof.
  eexists. split; [vm_compute; reflexivity|].
  apply (health_issues_match_score Fixtures.sample_bag). vm_compute. reflexivity.
Defined.

(** ** Auto-heal: what is planned and what is run *)

Section AutoHealPlanFacts.
Import Executor AutoHeal.
Context {World : Type}.
Variable run : Request -> World -> (Z * string * string) * World.








Lemma execute_action_issues host inv acc a (e : Env World) :
  exists x e',
    execute_action run host inv acc a e = (Ok (acc ++ [x]), e')
    /\ issued e' = issued e ++ probes_of host inv a.
Proof.
  unfold execute_action, mbind, M_bind, mret, M_ret, ansible_task.
  destruct (run _ (world e)) as [[[c1 o1] r1] w1]. simpl.
  destruct (run _ w1) as [[[c2 o2] r2] w2]. simpl.
  eexists _, _. split; [reflexivity|]. simpl. rewrite <- app_assoc. reflexivity.
Qed.

Lemma execution_loop_issues host inv actions acc (e : Env World) :
  exists rs e',
    for_each (execute_action run host inv) actions acc e = (Ok rs, e')
    /\ issued e' = issued e ++ flat_map (probes_of host inv) actions
    /\ length rs = (length acc + length actions)%nat.
Proof.
  revert acc e. induction actions as [|a actions IH]; intros acc e; simpl.
  - eexists _, _. split; [reflexivity|]. rewrite app_nil_r. split; [reflexivity|lia].
  - unfold mbind, M_bind.
    destruct (execute_action_issues host inv acc a e) as (x & e1 & -> & H1).
    destruct (IH (acc ++ [x]) e1) as (rs & e2 & -> & H2 & H3).
    eexists _, _. split; [reflexivity|]. split.
    + rewrite H2, H1, <- app_assoc. reflexivity.
    + rewrite H3, length_app. simpl. lia.
Qed.
End AutoHealPlanFacts.


(** X6: the commands a call issues. In dry-run mode none: the world and
    the command log come back unchanged and there are no execution
    results. Otherwise the log grows by the safety check and then the
    command of every proposed action, in order, and every proposed
    action is executed whatever its safety check returned. *)
Theorem auto_heal_issues_probes_of_proposed {World : Type}
    (run : Executor.Request -> World -> (Z * string * string) * World)
    (host : string) (symptoms : list string) (inv : option (list string))
    (max_impact : option string) (dry_run : option bool) (e : Executor.Env World) :
  exists r e',
    AutoHeal.ansible_auto_heal run host symptoms inv max_impact dry_run e = (Ok r, e')
    /\ if AutoHeal.not_dry dry_run then
         Executor.issued e'
         = Executor.issued e
           ++ flat_map (probes_of host (Executor.inventory_str inv))
                       (AutoHeal.proposed_actions r)
         /\ AutoHeal.executed_actions r
            = Z.of_nat (length (AutoHeal.proposed_actions r))
         /\ (exists rs, AutoHeal.execution_results r = Some rs
                        /\ length rs = length (AutoHeal.proposed_actions r))
       else e' = e /\ AutoHeal.execution_results r = None
            /\ AutoHeal.executed_actions r = 0.
Proof.
  unfold AutoHeal.ansible_auto_heal, mbind, Executor.M_bind, mret, Executor.M_ret.
  destruct (AutoHeal.not_dry dry_run).
  - destruct (execution_loop_issues run host (Executor.inventory_str inv)
                (AutoHeal.allowed_actions_of (AutoHeal.healing_actions_for symptoms)
                   max_impact) [] e)
      as (rs & e' & -> & Hissued & Hlen).
    eexists _, _. split; [reflexivity|]. simpl.
    repeat split; [exact Hissued|f_equal; exact Hlen|eauto].
  - eexists _, _. split; [reflexivity|]. simpl. auto.
Qed.

Section AutoHealEdgeFacts.
Import Executor AutoHeal.

Lemma unknown_level_is_low m :
  m <> "medium" -> m <> "high" -> max_impact_level (Some m) = 1.
Proof.
  intros Hm Hh. unfold max_impact_level.
  destruct (String.eqb m ""); [reflexivity|].
  unfold impact_hierarchy_get. cbn [dict_get].
  destruct (String.eqb "low" m); [reflexivity|].
  destruct (String.eqb_spec "medium" m); [congruence|].
  destruct (String.eqb_spec "high" m); [congruence|]. reflexivity.
Qed.

Lemma add_action_unknown actions s :
  ~ In s catalogue_symptoms -> add_action actions s = actions.
Proof.
  intros Hs. unfold add_action.
  repeat match goal with
         | |- context [String.eqb s ?k] =>
             destruct (String.eqb_spec s k);
             [exfalso; apply Hs; subst; simpl; tauto|]
         end.
  reflexivity.
Qed.

Lemma healing_actions_unknown symptoms acc :
  (forall s, In s symptoms -> ~ In s catalogue_symptoms) ->
  fold_left add_action symptoms acc = acc.
Proof.
  revert acc. induction symptoms as [|s symptoms IH]; intros acc H; simpl.
  - reflexivity.
  - rewrite add_action_unknown by (apply H; left; reflexivity).
    apply IH. intros s' Hs'. apply H. right. exact Hs'.
Qed.
End AutoHealEdgeFacts.

(** X7: a ceiling that is neither ["medium"] nor ["high"] (a misspelt or
    upper-case name, the empty string) plans exactly as ["low"] does, and
    so does a missing ceiling. *)
Theorem unknown_ceiling_plans_as_low {World : Type}
    (run : Executor.Request -> World -> (Z * string * string) * World)
    (host : string) (symptoms : list string) (inv : option (list string))
    (ceiling : string) (e : Executor.Env World) :
  ceiling <> "medium" -> ceiling <> "high" ->
  exists r r_low r_none,
    AutoHeal.ansible_auto_heal run host symptoms inv (Some ceiling) (Some true) e
    = (Ok r, e)
    /\ AutoHeal.ansible_auto_heal run host symptoms inv (Some "low") (Some true) e
       = (Ok r_low, e)
    /\ AutoHeal.ansible_auto_heal run host symptoms inv None (Some true) e
       = (Ok r_none, e)
    /\ AutoHeal.proposed_actions r = AutoHeal.proposed_actions r_low
    /\ AutoHeal.blocked_actions r = AutoHeal.blocked_actions r_low
    /\ AutoHeal.proposed_actions r_none = AutoHeal.proposed_actions r_low
    /\ AutoHeal.blocked_actions r_none = AutoHeal.blocked_actions r_low.
Proof.
  intros Hm Hh.
  unfold AutoHeal.ansible_auto_heal, mbind, Executor.M_bind, mret, Executor.M_ret.
  simpl. eexists _, _, _. repeat split; simpl;
    unfold AutoHeal.allowed_actions_of;
    rewrite ?(unknown_level_is_low ceiling Hm Hh); reflexivity.
Qed.

Lemma unknown_ceiling_plans_as_low_witness :
  exists r r_low r_none,
    AutoHeal.ansible_auto_heal (Fixtures.always 0 "") "web" ["high_cpu"; "disk_full"]
      None (Some "HIGH") (Some true) Fixtures.start = (Ok r, Fixtures.start)
    /\ AutoHeal.ansible_auto_heal (Fixtures.always 0 "") "web" ["high_cpu"; "disk_full"]
         None (Some "low") (Some true) Fixtures.start = (Ok r_low, Fixtures.start)
    /\ AutoHeal.ansible_auto_heal (Fixtures.always 0 "") "web" ["high_cpu"; "disk_full"]
         None None (Some true) Fixtures.start = (Ok r_none, Fixtures.start)
    /\ AutoHeal.proposed_actions r = AutoHeal.proposed_actions r_low
    /\ AutoHeal.blocked_actions r = AutoHeal.blocked_actions r_low
    /\ AutoHeal.proposed_actions r_none = AutoHeal.proposed_actions r_low
    /\ AutoHeal.blocked_actions r_none = AutoHeal.blocked_actions r_low.
Proof.
  apply (unknown_ceiling_plans_as_low (Fixtures.always 0 "") "web"
           ["high_cpu"; "disk_full"] None "HIGH" Fixtures.start); discriminate.
Defined.

(** X8: symptoms outside the catalogue are ignored: when none of the
    symptoms is recognised, nothing is proposed, nothing is blocked and,
    dry run or not, no command is issued. *)
Theorem unknown_symptoms_plan_nothing {World : Type}
    (run : Executor.Request -> World -> (Z * string * string) * World)
    (host : string) (symptoms : list string) (inv : option (list string))
    (max_impact : option string) (dry_run : option bool) (e : Executor.Env World) :
  (forall s, In s symptoms -> ~ In s catalogue_symptoms) ->
  exists r,
    AutoHeal.ansible_auto_heal run host symptoms inv max_impact dry_run e = (Ok r, e)
    /\ AutoHeal.proposed_actions r = []
    /\ AutoHeal.blocked_actions r = []
    /\ AutoHeal.total_symptoms r = Z.of_nat (length symptoms)
    /\ AutoHeal.actionable_symptoms r = 0.
Proof.
  intros Hunknown.
  unfold AutoHeal.ansible_auto_heal, AutoHeal.healing_actions_for.
  rewrite (healing_actions_unknown symptoms [] Hunknown).
  unfold mbind, Executor.M_bind, mret, Executor.M_ret. simpl.
  destruct (AutoHeal.not_dry dry_run); simpl; eexists; repeat split.
Qed.

Lemma unknown_symptoms_plan_nothing_witness :
  exists r,
    AutoHeal.ansible_auto_heal (Fixtures.always 0 "") "web" ["High_CPU"; "slow"]
      None (Some "high") (Some false) Fixtures.start = (Ok r, Fixtures.start)
    /\ AutoHeal.proposed_actions r = []
    /\ AutoHeal.blocked_actions r = []
    /\ AutoHeal.total_symptoms r = Z.of_nat (length ["High_CPU"; "slow"])
    /\ AutoHeal.actionable_symptoms r = 0.
Proof.
  apply (unknown_symptoms_plan_nothing (Fixtures.always 0 "") "web"
           ["High_CPU"; "slow"] None (Some "high") (Some false) Fixtures.start).
  intros s Hs. simpl in *. intuition (subst; discriminate).
Defined.

(** ** Timestamps and correlation *)

Section CorrelationFacts.
Import Timestamp LogHunter.







End CorrelationFacts.





(** ** Log hunting: the searches a hunt issues *)

Section HuntFacts.
Import PyStr Executor LogHunter.
Context {World : Type}.
Variable run : Request -> World -> (Z * string * string) * World.
Variable current_year : Z.






End HuntFacts.





(** ** Security audit: bounds and probes *)

Section SecurityBoundsFacts.
Import PyStr Executor SecurityAuditor.
Context {World : Type}.
Variable run : Request -> World -> (Z * string * string) * World.

Lemma score_category_bounds acc item acc' :
  score_category acc item = Ok acc' ->
  acc'.1 <= acc.1 /\ (length acc'.2 <= S (length acc.2))%nat.
Proof.
  destruct acc as [score recs], item as [category results].
  unfold score_category.
  repeat match goal with
         | |- context [String.eqb category ?k] => destruct (String.eqb category k)
         end;
    try (intros [= <-]; simpl; lia);
    (destruct (py_int _) as [n|]; simpl; [|discriminate]);
    (destruct (Z.ltb_spec 0 n); intros [= <-]; simpl;
     rewrite ?length_app; simpl; lia).
Qed.

Lemma score_categories_bounds items acc acc' :
  score_categories items acc = Ok acc' ->
  acc'.1 <= acc.1 /\ (length acc'.2 <= length acc.2 + length items)%nat.
Proof.
  revert acc. induction items as [|item items IH]; intros acc; simpl.
  - intros [= <-]. lia.
  - destruct (score_category acc item) as [acc1|] eqn:E; simpl; [|discriminate].
    intros H. apply IH in H. apply score_category_bounds in E. lia.
Qed.

End SecurityBoundsFacts.

(** X13: whatever the audited categories hold, an assessment that is
    returned has a score between 0 and 100 and at most one
    recommendation per category. *)
Theorem security_score_in_range
    (categories : list (string * list (string * string)))
    (a : SecurityAuditor.SecurityAssessment) :
  SecurityAuditor.assess categories = Ok a ->
  0 <= SecurityAuditor.score a <= 100
  /\ (length (SecurityAuditor.recommendations a) <= length categories)%nat.
Proof.
  unfold SecurityAuditor.assess.
  destruct (SecurityAuditor.score_categories _ _) as [[score recs]|] eqn:E; simpl;
    [|discriminate].
  intros [= <-]. simpl. apply score_categories_bounds in E. simpl in E. lia.
Qed.

Lemma security_score_in_range_witness :
  exists a,
    SecurityAuditor.assess
      (SecurityAuditor.categories_of (Some ("7", "12")) None (Some ("9", "20")) None)
    = Ok a
    /\ 0 <= SecurityAuditor.score a <= 100
    /\ (length (SecurityAuditor.recommendations a)
        <= length (SecurityAuditor.categories_of (Some ("7", "12")) None
                     (Some ("9", "20")) None))%nat.
Proof.
  eexists. split; [vm_compute; reflexivity|].
  apply (security_score_in_range
           (SecurityAuditor.categories_of (Some ("7", "12")) None (Some ("9", "20")) None)).
  vm_compute. reflexivity.
Defined.


Section NonpositiveCounts.
Import PyStr SecurityAuditor.

Ltac idle_case H :=
  let Hn := fresh "Hn" in
  destruct (H _ eq_refl) as [Hn ?]; simpl in Hn; rewrite Hn; simpl;
  match goal with |- context [0 <? ?n] => destruct (Z.ltb_spec 0 n); [lia|] end;
  reflexivity.

Lemma packages_idle packages n acc :
  (forall p, packages = Some p -> py_int p.1 = Ok n /\ n <= 0) ->
  score_categories
    match packages with
    | Some p => [("packages", [("security_updates_available", p.1);
                               ("total_updates_available", p.2)])]
    | None => []
    end acc
  = Ok acc.
Proof.
  intros H. destruct acc as [score recs], packages as [[p1 p2]|]; simpl;
    [|reflexivity].
  simpl in H. idle_case H.
Qed.

Lemma permissions_idle permissions n acc :
  (forall p, permissions = Some p -> py_int p.2 = Ok n /\ n <= 0) ->
  score_categories
    match permissions with
    | Some p => [("permissions", [("suid_sgid_files", p.1);
                                  ("world_writable_files", p.2)])]
    | None => []
    end acc
  = Ok acc.
Proof.
  intros H. destruct acc as [score recs], permissions as [[p1 p2]|]; simpl;
    [|reflexivity].
  simpl in H. idle_case H.
Qed.

Lemma network_idle network n acc :
  (forall p, network = Some p -> py_int p.2 = Ok n /\ n <= 0) ->
  score_categories
    match network with
    | Some p => [("network", [("open_ports", p.1); ("insecure_services", p.2)])]
    | None => []
    end acc
  = Ok acc.
Proof.
  intros H. destruct acc as [score recs], network as [[p1 p2]|]; simpl;
    [|reflexivity].
  simpl in H. idle_case H.
Qed.
End NonpositiveCounts.

(** X15: a count that parses to zero or to a negative number deducts
    nothing: when the three counters of an audit are all at most 0, the
    score is 100, the level is ["good"] and nothing is recommended. *)
Theorem nonpositive_counts_deduct_nothing
    (packages permissions network config : option (string * string))
    (n1 n2 n3 : Z) :
  (forall p, packages = Some p -> PyStr.py_int p.1 = Ok n1 /\ n1 <= 0) ->
  (forall p, permissions = Some p -> PyStr.py_int p.2 = Ok n2 /\ n2 <= 0) ->
  (forall p, network = Some p -> PyStr.py_int p.2 = Ok n3 /\ n3 <= 0) ->
  SecurityAuditor.assess
    (SecurityAuditor.categories_of packages permissions network config)
  = Ok {| SecurityAuditor.score := 100;
          SecurityAuditor.level := "good";
          SecurityAuditor.recommendations := [] |}.
Proof.
  intros Hp Hw Hn. unfold SecurityAuditor.assess, SecurityAuditor.categories_of.
  rewrite score_categories_app, (packages_idle packages n1 _ Hp).
  unfold mbind at 2, result_bind.
  rewrite score_categories_app, (permissions_idle permissions n2 _ Hw).
  unfold mbind at 2, result_bind.
  rewrite score_categories_app, (network_idle network n3 _ Hn).
  unfold mbind at 2, result_bind.
  rewrite config_no_deduction. reflexivity.
Qed.

Lemma nonpositive_counts_deduct_nothing_witness :
  SecurityAuditor.assess
    (SecurityAuditor.categories_of (Some ("-3", "12")) (Some ("40", "0"))
                                   (Some ("9", " -1 ")) None)
  = Ok {| SecurityAuditor.score := 100;
          SecurityAuditor.level := "good";
          SecurityAuditor.recommendations := [] |}.
Proof.
  apply (nonpositive_counts_deduct_nothing (Some ("-3", "12")) (Some ("40", "0"))
           (Some ("9", " -1 ")) None (-3) 0 (-1));
    intros p [= <-]; (split; [reflexivity|lia]).
Defined.

(** ** Health monitor: samples and probes *)

Section MonitorFacts.
Import Executor HealthMonitor.
Context {World : Type}.
Variable run : Request -> World -> (Z * string * string) * World.
Variable py_float : string -> option pyfloat.

Lemma collect_step host inv history i (e : Env World) :
  exists res e',
    collect run py_float host inv history i e = (res, e')
    /\ issued e' = issued e ++ [shell host inv monitor_cmd]
    /\ (forall h, res = Ok h ->
          (length history <= length h <= S (length history))%nat)
    /\ (exit_code run (shell host inv monitor_cmd) (world e) <> 0 ->
        res = Ok history).
Proof.
  unfold collect, mbind, M_bind, ansible_task, exit_code.
  destruct (run _ (world e)) as [[[c o] er] w]. simpl.
  destruct (Z.eqb_spec c 0) as [->|Hc]; simpl.
  - unfold lift. destruct (parse_sample py_float o) as [s|err]; simpl;
      eexists _, _; (split; [reflexivity|]); (split; [reflexivity|]);
      (split; [|congruence]).
    + intros h [= <-]. rewrite length_app. simpl. lia.
    + discriminate.
  - eexists _, _. split; [reflexivity|]. split; [reflexivity|].
    split; [|reflexivity]. intros h [= <-]. lia.
Qed.

Lemma collect_loop host inv idxs history (e : Env World) :
  exists res e',
    for_each (collect run py_float host inv) idxs history e = (res, e')
    /\ (length (issued e') <= length (issued e) + length idxs)%nat
    /\ (forall h, res = Ok h ->
          length (issued e') = (length (issued e) + length idxs)%nat
          /\ (length history <= length h <= length history + length idxs)%nat).
Proof.
  revert history e. induction idxs as [|i idxs IH]; intros history e; simpl.
  - eexists _, _. split; [reflexivity|]. split; [lia|].
    intros h [= <-]. lia.
  - unfold mbind, M_bind.
    destruct (collect_step host inv history i e) as (r1 & e1 & -> & H1 & Hlen & _).
    destruct r1 as [h1|err].
    + destruct (IH h1 e1) as (r2 & e2 & -> & HA & HB).
      specialize (Hlen h1 eq_refl).
      assert (length (issued e1) = S (length (issued e))) as Hi
        by (rewrite H1, length_app; simpl; lia).
      eexists _, _. split; [reflexivity|]. split; [lia|].
      intros h Hh. specialize (HB h Hh). lia.
    + eexists _, _. split; [reflexivity|].
      split; [rewrite H1, length_app; simpl; lia|discriminate].
Qed.

End MonitorFacts.

(** X16: a monitoring report that is returned was built from exactly
    [duration // interval] probes and holds at most that many samples;
    [data_points] is the length of the history and the duration is the
    one used (300 when missing or 0). *)
Theorem monitor_report_counts {World : Type}
    (run : Executor.Request -> World -> (Z * string * string) * World)
    (py_float : string -> option pyfloat)
    (host : string) (inv : option (list string))
    (monitoring_duration metrics_interval : option Z)
    (e e' : Executor.Env World) (r : HealthMonitor.MonitorReport) :
  HealthMonitor.ansible_health_monitor run py_float host inv
    monitoring_duration metrics_interval e = (Ok r, e') ->
  length (Executor.issued e')
  = (length (Executor.issued e)
     + collection_points monitoring_duration metrics_interval)%nat
  /\ (length (HealthMonitor.metrics_history r)
      <= collection_points monitoring_duration metrics_interval)%nat
  /\ HealthMonitor.data_points r
     = Z.of_nat (length (HealthMonitor.metrics_history r))
  /\ HealthMonitor.duration_seconds r
     = HealthMonitor.or_default monitoring_duration 300.
Proof.
  unfold HealthMonitor.ansible_health_monitor, mbind, Executor.M_bind.
  fold (collection_points monitoring_duration metrics_interval).
  destruct (collect_loop run py_float host (Executor.inventory_str inv)
              (seq 0 (collection_points monitoring_duration metrics_interval)) [] e)
    as (res & e1 & -> & _ & H).
  destruct res as [h|err]; [|discriminate].
  intros [= <- <-]. simpl. destruct (H h eq_refl) as [Hi Hh].
  rewrite length_seq in *. simpl in Hh. repeat split; lia.
Qed.

Lemma monitor_report_counts_witness :
  exists r e',
    HealthMonitor.ansible_health_monitor
      (Fixtures.always 0 "2024-01-01 10:00:00,0.52,41.7,63") (fun _ => Some NaN)
      "web" None (Some 90) None Fixtures.start = (Ok r, e')
    /\ length (Executor.issued e')
       = (length (Executor.issued Fixtures.start) + collection_points (Some 90%Z) None)%nat
    /\ (length (HealthMonitor.metrics_history r) <= collection_points (Some 90%Z) None)%nat
    /\ HealthMonitor.data_points r
       = Z.of_nat (length (HealthMonitor.metrics_history r))
    /\ HealthMonitor.duration_seconds r = HealthMonitor.or_default (Some 90) 300.
Proof.
  eexists _, _. split; [vm_compute; reflexivity|].
  apply (monitor_report_counts
           (Fixtures.always 0 "2024-01-01 10:00:00,0.52,41.7,63") (fun _ => Some NaN)
           "web" None (Some 90) None Fixtures.start).
  vm_compute. reflexivity.
Defined.



(** X18: when the duration is shorter than the interval (or either is
    negative) there is nothing to collect: the call issues no probe and
    returns an empty history. *)
Theorem short_duration_collects_nothing {World : Type}
    (run : Executor.Request -> World -> (Z * string * string) * World)
    (py_float : string -> option pyfloat)
    (host : string) (inv : option (list string))
    (monitoring_duration metrics_interval : option Z) (e : Executor.Env World) :
  HealthMonitor.or_default monitoring_duration 300
  / HealthMonitor.or_default metrics_interval 30 <= 0 ->
  exists r,
    HealthMonitor.ansible_health_monitor run py_float host inv
      monitoring_duration metrics_interval e = (Ok r, e)
    /\ HealthMonitor.metrics_history r = []
    /\ HealthMonitor.data_points r = 0.
Proof.
  intros Hpoints. unfold HealthMonitor.ansible_health_monitor.
  replace (Z.to_nat _) with 0%nat by lia.
  eexists. split; [reflexivity|]. split; reflexivity.
Qed.

Lemma short_duration_collects_nothing_witness :
  exists r,
    HealthMonitor.ansible_health_monitor (Fixtures.always 0 "") (fun _ => None)
      "web" None (Some 10) None Fixtures.start = (Ok r, Fixtures.start)
    /\ HealthMonitor.metrics_history r = []
    /\ HealthMonitor.data_points r = 0.
Proof.
  apply (short_duration_collects_nothing (Fixtures.always 0 "") (fun _ => None)
           "web" None (Some 10) None Fixtures.start).
  vm_compute. discriminate.
Defined.

(** ** Host diagnosis: probes and score range *)

Section DiagnoseMoreFacts.
Import Executor Diagnose.
Context {World : Type}.
Variable run : Request -> World -> (Z * string * string) * World.
Variable py_float : string -> option pyfloat.


End DiagnoseMoreFacts.


Section QuietChecks.
Import Executor Diagnose.
Context {World : Type}.
Variable run : Request -> World -> (Z * string * string) * World.
Variable py_float : string -> option pyfloat.

Lemma update_unread metrics m :
  forallb unread_entry metrics = true -> unread_bag m -> unread_bag (update m metrics).
Proof.
  unfold update. revert m.
  induction metrics as [|[k v] metrics IH]; intros m Hm Hbag; simpl; [exact Hbag|].
  simpl in Hm. apply andb_true_iff in Hm as [Hkv Hm].
  apply IH; [exact Hm|].
  intros k' v'. rewrite lookup_insert. case_decide; subst; simpl.
  - intros [= <-]. exact Hkv.
  - apply Hbag.
Qed.

Lemma merge_quiet_checks cs :
  forallb quiet_check cs = true -> unread_bag (merge_checks cs).
Proof.
  unfold merge_checks.
  assert (unread_bag (∅ : gmap string value)) as H0
    by (intros k v; rewrite lookup_empty; discriminate).
  revert H0. generalize (∅ : gmap string value) as m.
  induction cs as [|[name metrics] cs IH]; intros m Hm Hcs; simpl; [exact Hm|].
  simpl in Hcs. apply andb_true_iff in Hcs as [Hitem Hrest].
  apply IH; [|exact Hrest].
  unfold quiet_check in Hitem. simpl in Hitem.
  destruct (dict_get "error" metrics); [exact Hm|].
  apply update_unread; assumption.
Qed.

Lemma unread_bag_lookup m k :
  unread_bag m -> (forall v, unread_entry (k, v) = false) -> m !! k = None.
Proof.
  intros Hbag Hk. destruct (m !! k) as [v|] eqn:E; [|reflexivity].
  apply Hbag in E. rewrite Hk in E. discriminate.
Qed.

(** A bag with none of the five keys scores 100. *)
Lemma unread_bag_scores_100 m :
  unread_bag m ->
  HealthScorer._calculate_health_score m
  = Ok {| HealthScorer.score := 100; HealthScorer.level := "healthy";
          HealthScorer.issues := []; HealthScorer.recommendations := [] |}.
Proof.
  intros Hbag.
  unfold HealthScorer._calculate_health_score, HealthScorer.cpu_health,
    HealthScorer.memory_health, HealthScorer.disk_health,
    HealthScorer.service_health, HealthScorer.network_connectivity.
  rewrite !(unread_bag_lookup m _ Hbag) by reflexivity. reflexivity.
Qed.

Lemma dict_set_quiet name metrics cs :
  quiet_check (name, metrics) = true -> forallb quiet_check cs = true ->
  forallb quiet_check (dict_set name metrics cs) = true.
Proof.
  intros Hm. induction cs as [|[k v] cs IH]; simpl.
  - intros _. rewrite andb_true_r. exact Hm.
  - intros Hcs. apply andb_true_iff in Hcs as [Hk Hcs].
    destruct (String.eqb k name); simpl; apply andb_true_iff; split; auto.
Qed.

Lemma run_check_quiet host inv check_types name cmd metrics_of cs (e : Env World) :
  (forall r, quiet_check (name, metrics_of r) = true) ->
  forallb quiet_check cs = true ->
  exists cs' e',
    run_check run host inv check_types name cmd metrics_of cs e = (Ok cs', e')
    /\ forallb quiet_check cs' = true.
Proof.
  intros Hm Hcs. unfold run_check.
  destruct (string_in name check_types).
  - unfold mbind, M_bind, ansible_task.
    destruct (run _ _) as [[[c o] er] w]. simpl.
    eexists _, _. split; [reflexivity|]. apply dict_set_quiet; auto.
  - eexists _, _. split; [reflexivity|exact Hcs].
Qed.

Lemma system_check_quiet host inv check_types (e : Env World) :
  string_in "system" check_types = false
  \/ exit_code run (shell host inv system_cmd) (world e) <> 0 ->
  exists cs' e',
    run_check run host inv check_types "system" system_cmd
      (system_metrics_of py_float) [] e = (Ok cs', e')
    /\ forallb quiet_check cs' = true.
Proof.
  intros Hsys. unfold run_check.
  destruct (string_in "system" check_types).
  - destruct Hsys as [|Hcode]; [discriminate|].
    unfold mbind, M_bind, ansible_task, exit_code in *.
    destruct (run _ _) as [[[c o] er] w]. simpl.
    eexists _, _. split; [reflexivity|].
    unfold system_metrics_of. simpl.
    destruct (Z.eqb_spec c 0); [contradiction|]. reflexivity.
  - eexists _, _. split; reflexivity.
Qed.
End QuietChecks.

(** X20: only a parsed system check can lower the health score. When the
    system check is not selected, or its probe exits with a non-zero
    code, the diagnosis reports a score of 100, level ["healthy"] and no
    issue, whatever the other probes answer. *)
Theorem unprobed_system_scores_100 {World : Type}
    (run : Executor.Request -> World -> (Z * string * string) * World)
    (py_float : string -> option pyfloat)
    (host : string) (inv checks : option (list string)) (e : Executor.Env World) :
  Diagnose.string_in "system" (check_types_of checks) = false
  \/ Executor.exit_code run
       (Executor.shell host (Executor.inventory_str inv) Diagnose.system_cmd)
       (Executor.world e) <> 0 ->
  exists d e',
    Diagnose.ansible_diagnose_host run py_float host inv checks (Some true) e
    = (Ok d, e')
    /\ Diagnose.health_score d
       = Some {| HealthScorer.score := 100; HealthScorer.level := "healthy";
                 HealthScorer.issues := []; HealthScorer.recommendations := [] |}.
Proof.
  intros Hsys.
  unfold Diagnose.ansible_diagnose_host. fold (check_types_of checks).
  set (inv' := Executor.inventory_str inv) in *.
  set (types := check_types_of checks) in *.
  unfold mbind, Executor.M_bind.
  destruct (system_check_quiet run py_float host inv' types e Hsys)
    as (cs1 & e1 & -> & H1).
  destruct (run_check_quiet run host inv' types "network" Diagnose.network_cmd
              Diagnose.network_metrics_of cs1 e1 (fun _ => eq_refl) H1)
    as (cs2 & e2 & -> & H2).
  destruct (run_check_quiet run host inv' types "security" Diagnose.security_cmd
              Diagnose.security_metrics_of cs2 e2 (fun _ => eq_refl) H2)
    as (cs3 & e3 & -> & H3).
  destruct (run_check_quiet run host inv' types "performance"
              Diagnose.performance_cmd Diagnose.performance_metrics_of cs3 e3
              (fun _ => eq_refl) H3)
    as (cs4 & e4 & -> & H4).
  unfold Executor.lift.
  rewrite (unread_bag_scores_100 _ (merge_quiet_checks cs4 H4)).
  eexists _, _. split; reflexivity.
Qed.

Lemma unprobed_system_scores_100_witness :
  exists d e',
    Diagnose.ansible_diagnose_host (Fixtures.always 4 "UNREACHABLE!")
      (fun _ => Some (Finite (99 # 1))) "web" None None (Some true) Fixtures.start
    = (Ok d, e')
    /\ Diagnose.health_score d
       = Some {| HealthScorer.score := 100; HealthScorer.level := "healthy";
                 HealthScorer.issues := []; HealthScorer.recommendations := [] |}.
Proof.
  apply (unprobed_system_scores_100 (Fixtures.always 4 "UNREACHABLE!")
           (fun _ => Some (Finite (99 # 1))) "web" None None Fixtures.start).
  right. vm_compute. discriminate.
Defined.


(** ** Play recaps *)

Section RecapFacts.
Import PyStr Executor PlayRecap.

Lemma dict_set_keys {V} k (v : V) d :
  has_key k d = true -> map fst (dict_set k v d) = map fst d.
Proof.
  unfold has_key. induction d as [|[k' v'] d IH]; simpl; [discriminate|].
  destruct (String.eqb k' k); simpl; [reflexivity|].
  intros H. rewrite IH by exact H. reflexivity.
Qed.

Lemma read_segment_keys stats seg :
  map fst (read_segment stats seg) = map fst stats.
Proof.
  unfold read_segment.
  destruct (contains "=" seg); [|reflexivity].
  destruct (split_once "=" seg) as [|k [|v [|x l]]]; try reflexivity.
  destruct (has_key k stats) eqn:Hk; [|reflexivity].
  destruct (py_int v); [|reflexivity].
  apply dict_set_keys, Hk.
Qed.

Lemma read_segments_keys segs stats :
  map fst (fold_left read_segment segs stats) = map fst stats.
Proof.
  revert stats. induction segs as [|seg segs IH]; intros stats; simpl.
  - reflexivity.
  - rewrite IH. apply read_segment_keys.
Qed.

Lemma dict_set_full host stats totals :
  full_stats (host, stats) -> Forall full_stats totals ->
  Forall full_stats (dict_set host stats totals).
Proof.
  intros Hs. induction 1 as [|[k v] totals Hk Ht IH]; simpl.
  - constructor; [exact Hs|constructor].
  - destruct (String.eqb k host); constructor; auto.
Qed.

Lemma read_line_full acc line :
  Forall full_stats acc.1 -> Forall full_stats (read_line acc line).1.
Proof.
  destruct acc as [totals started]. unfold read_line. simpl.
  intros Ht.
  destruct (String.prefix _ _); [exact Ht|].
  destruct started; [|exact Ht].
  destruct (String.eqb _ _); [exact Ht|].
  destruct (split_once ":" line) as [|h [|r [|x l]]]; try exact Ht.
  simpl. apply dict_set_full; [|exact Ht].
  unfold full_stats. simpl. rewrite read_segments_keys. reflexivity.
Qed.

Lemma read_lines_full lines acc :
  Forall full_stats acc.1 -> Forall full_stats (fold_left read_line lines acc).1.
Proof.
  revert acc. induction lines as [|line lines IH]; intros acc H; simpl.
  - exact H.
  - apply IH, read_line_full, H.
Qed.

(** Before the header nothing is recorded. *)
Lemma read_lines_before_header lines :
  Forall (fun line => String.prefix "PLAY RECAP" (strip line) = false) lines ->
  fold_left read_line lines ([], false) = ([], false).
Proof.
  induction 1 as [|line lines Hline _ IH]; simpl; [reflexivity|].
  rewrite Hline. exact IH.
Qed.
End RecapFacts.

(** X21: every host entry of a parsed recap has exactly the seven
    counters ok, changed, unreachable, failed, skipped, rescued and
    ignored, in that order: unknown keys and unparsable values on a host
    line never add, drop or reorder a counter. *)
Theorem recap_entries_have_seven_counters (stdout host : string)
    (stats : list (string * Z)) :
  In (host, stats) (PlayRecap._parse_play_recap stdout) ->
  map fst stats = PlayRecap.stat_keys.
Proof.
  intros Hin. unfold PlayRecap._parse_play_recap in Hin.
  pose proof (read_lines_full (PyStr.splitlines stdout) ([], false)
                (List.Forall_nil _)) as Hall.
  rewrite List.Forall_forall in Hall. apply (Hall (host, stats) Hin).
Qed.

Lemma recap_entries_have_seven_counters_witness :
  map fst [("ok", 3); ("changed", 2); ("unreachable", 0); ("failed", 0);
           ("skipped", 0); ("rescued", 0); ("ignored", 0)]
  = PlayRecap.stat_keys.
Proof.
  apply (recap_entries_have_seven_counters
           ("PLAY RECAP ***" +:+ Fixtures.newline
            +:+ "web1 : ok=3 changed=2 failed=x bogus=4") "web1").
  vm_compute. left. reflexivity.
Defined.

(** X22: host lines count only after a line that starts with
    [PLAY RECAP]: output without such a line parses to an empty recap,
    whose changed total is 0. *)
Theorem recap_needs_header (stdout : string) :
  Forall (fun line => String.prefix "PLAY RECAP" (PyStr.strip line) = false)
         (PyStr.splitlines stdout) ->
  PlayRecap._parse_play_recap stdout = []
  /\ PlayRecap._sum_changed (PlayRecap._parse_play_recap stdout) = 0.
Proof.
  intros H. unfold PlayRecap._parse_play_recap.
  rewrite (read_lines_before_header _ H). split; reflexivity.
Qed.

Lemma recap_needs_header_witness :
  PlayRecap._parse_play_recap "web1 : ok=3 changed=2" = []
  /\ PlayRecap._sum_changed (PlayRecap._parse_play_recap "web1 : ok=3 changed=2") = 0.
Proof.
  apply (recap_needs_header "web1 : ok=3 changed=2").
  vm_compute. repeat constructor.
Defined.

(** ** Playbook runs *)

Section PlaybookFacts.
Import PyStr PlayRecap Playbook.

Lemma verbosity_flag_shape v :
  v <> 0 ->
  exists n, (1 <= n <= 4)%nat /\ Z.of_nat n = Z.max 1 (Z.min v 4)
            /\ verbosity_flag (Some v)
               = ["-" +:+ string_of_list_ascii (repeat "v"%char n)].
Proof.
  intros Hv. unfold verbosity_flag, repeat_v.
  destruct (Z.eqb_spec v 0); [contradiction|].
  exists (Z.to_nat (Z.max 1 (Z.min v 4))). repeat split; lia.
Qed.
End PlaybookFacts.

(** X23: the verbosity of a playbook run is clamped: for any non-zero
    verbosity, also a negative one or one above 4, the command line ends
    with a flag made of a dash and between one and four letters v, as
    many as the verbosity when that lies between 1 and 4. *)
Theorem playbook_verbosity_is_clamped
    (json_dumps : list (string * value) -> string) (a : Playbook.PlaybookArgs)
    (v : Z) :
  Playbook.verbose a = Some v -> v <> 0 ->
  exists n,
    (1 <= n <= 4)%nat
    /\ Z.of_nat n = Z.max 1 (Z.min v 4)
    /\ List.last (Playbook.playbook_cmd json_dumps a) ""
       = "-" +:+ string_of_list_ascii (repeat "v"%char n).
Proof.
  intros Hverbose Hv. destruct (verbosity_flag_shape v Hv) as (n & Hn & Hz & Hflag).
  exists n. split; [exact Hn|]. split; [exact Hz|].
  unfold Playbook.playbook_cmd. rewrite Hverbose, Hflag, !app_assoc.
  apply last_last.
Qed.

Lemma playbook_verbosity_is_clamped_witness :
  exists n,
    (1 <= n <= 4)%nat
    /\ Z.of_nat n = Z.max 1 (Z.min 9 4)
    /\ List.last
         (Playbook.playbook_cmd (fun _ => "{}")
            {| Playbook.playbook_path := "site.yml"; Playbook.inventory := None;
               Playbook.extra_vars := None; Playbook.tags := None;
               Playbook.skip_tags := None; Playbook.limit := None;
               Playbook.check := Some true; Playbook.diff := None;
               Playbook.verbose := Some 9 |}) ""
       = "-" +:+ string_of_list_ascii (repeat "v"%char n).
Proof.
  apply (playbook_verbosity_is_clamped (fun _ => "{}")
           {| Playbook.playbook_path := "site.yml"; Playbook.inventory := None;
              Playbook.extra_vars := None; Playbook.tags := None;
              Playbook.skip_tags := None; Playbook.limit := None;
              Playbook.check := Some true; Playbook.diff := None;
              Playbook.verbose := Some 9 |} 9); [reflexivity|lia].
Defined.

(** X24: the idempotence test runs the same command line twice and its
    verdict reads the exit codes and the second run only: it passes
    exactly when both runs exit with 0 and the changed counters of the
    second recap sum to 0. In particular a second run that prints no
    recap passes as soon as both exit codes are 0. *)
Theorem idempotence_verdict {World : Type}
    (run : list string -> World -> (Z * string * string) * World)
    (json_dumps : list (string * value) -> string)
    (playbook_path : string) (inventory_paths : option (list string))
    (extra_vars : option (list (string * value))) (verbose : option Z)
    (w w1 w2 : World) (c1 c2 : Z) (o1 o2 e1 e2 : string) (cmd : list string) :
  cmd = Playbook.playbook_cmd json_dumps
          {| Playbook.playbook_path := playbook_path;
             Playbook.inventory := Executor.inventory_str inventory_paths;
             Playbook.extra_vars := extra_vars;
             Playbook.tags := None; Playbook.skip_tags := None;
             Playbook.limit := None; Playbook.check := None;
             Playbook.diff := None; Playbook.verbose := verbose |} ->
  run cmd w = ((c1, o1, e1), w1) ->
  run cmd w1 = ((c2, o2, e2), w2) ->
  exists r,
    Playbook.ansible_test_idempotence run json_dumps playbook_path
      inventory_paths extra_vars verbose w = (r, w2)
    /\ Playbook.first_command r = Playbook.second_command r
    /\ (Playbook.idempotent r = true
        <-> c1 = 0 /\ c2 = 0
            /\ PlayRecap._sum_changed (PlayRecap._parse_play_recap o2) = 0)
    /\ (Forall (fun line => String.prefix "PLAY RECAP" (PyStr.strip line) = false)
               (PyStr.splitlines o2) ->
        (Playbook.idempotent r = true <-> c1 = 0 /\ c2 = 0)).
Proof.
  intros -> H1 H2.
  unfold Playbook.ansible_test_idempotence, Playbook.ansible_playbook.
  rewrite H1, H2. eexists. split; [reflexivity|]. simpl.
  split; [reflexivity|].
  assert (forall z, (c1 =? 0) && (c2 =? 0) && (z =? 0) = true
                    <-> c1 = 0 /\ c2 = 0 /\ z = 0) as Hiff.
  { intros z. rewrite !andb_true_iff, !Z.eqb_eq. tauto. }
  split; [apply Hiff|].
  intros Hno. destruct (recap_needs_header o2 Hno) as [_ ->].
  rewrite Hiff. tauto.
Qed.

Lemma idempotence_verdict_witness :
  exists r,
    Playbook.ansible_test_idempotence
      (fun _ (w : unit) => ((0, "ok: [web1]", ""), w)) (fun _ => "{}")
      "site.yml" None None None tt = (r, tt)
    /\ Playbook.first_command r = Playbook.second_command r
    /\ (Playbook.idempotent r = true
        <-> 0 = 0 /\ 0 = 0
            /\ PlayRecap._sum_changed (PlayRecap._parse_play_recap "ok: [web1]") = 0)
    /\ (Forall (fun line => String.prefix "PLAY RECAP" (PyStr.strip line) = false)
               (PyStr.splitlines "ok: [web1]") ->
        (Playbook.idempotent r = true <-> 0 = 0 /\ 0 = 0)).
Proof.
  apply (idempotence_verdict (fun _ (w : unit) => ((0, "ok: [web1]", ""), w))
           (fun _ => "{}") "site.yml" None None None tt tt tt 0 0
           "ok: [web1]" "ok: [web1]" "" ""
           ["ansible-playbook"; "site.yml"]); reflexivity.
Defined.

(** ** Log fetching *)

Section FetchFacts.
Import Executor FetchLogs.
Context {World : Type}.
Variable run : Request -> World -> (Z * string * string) * World.




End FetchFacts.


(** ** Performance baseline *)

Section PerformanceFacts.
Import Executor PerformanceBaseline.
Context {World : Type}.
Variable run : Request -> World -> (Z * string * string) * World.
Variable py_float : string -> option pyfloat.

End PerformanceFacts.

(** X26: the performance assessment never fails and knows four
    outcomes only: 100 and ["excellent"], 85 or 80 and ["good"], 65 and
    ["poor"], with at most two issues. *)
Theorem performance_assessment_outcomes
    (py_float : string -> option pyfloat) (b : PerformanceBaseline.Benchmarks) :
  let a := PerformanceBaseline.assess py_float b in
  ((PerformanceBaseline.score a = 100 /\ PerformanceBaseline.level a = "excellent")
   \/ (PerformanceBaseline.score a = 85 /\ PerformanceBaseline.level a = "good")
   \/ (PerformanceBaseline.score a = 80 /\ PerformanceBaseline.level a = "good")
   \/ (PerformanceBaseline.score a = 65 /\ PerformanceBaseline.level a = "poor"))
  /\ (length (PerformanceBaseline.issues a) <= 2)%nat.
Proof.
  unfold PerformanceBaseline.assess, PerformanceBaseline.load_rule,
    PerformanceBaseline.memory_rule, PerformanceBaseline.float_of.
  repeat match goal with
         | |- context [match ?x with _ => _ end] =>
             lazymatch x with
             | context [match _ with _ => _ end] => fail
             | _ => destruct x; simpl
             end
         end;
    (split; [tauto|lia]).
Qed.

(** X27: a system load that is printed but cannot be read as a number
    ends the analysis at once: the memory figure is not looked at, the
    score stays 100 and the only issue is the parse note. *)
Theorem unreadable_load_hides_memory
    (py_float : string -> option pyfloat) (b : PerformanceBaseline.Benchmarks) :
  PerformanceBaseline.system_load b <> "" ->
  py_float (PerformanceBaseline.system_load b) = None ->
  PerformanceBaseline.assess py_float b
  = {| PerformanceBaseline.score := 100;
       PerformanceBaseline.level := "excellent";
       PerformanceBaseline.issues := ["Could not parse some benchmark results"] |}.
Proof.
  intros Hne Hnone.
  unfold PerformanceBaseline.assess, PerformanceBaseline.load_rule,
    PerformanceBaseline.float_of.
  destruct (String.eqb_spec (PerformanceBaseline.system_load b) "");
    [contradiction|].
  rewrite Hnone. reflexivity.
Qed.

Lemma unreadable_load_hides_memory_witness :
  PerformanceBaseline.assess (fun s => if String.eqb s "3" then Some (Finite (3 # 1)) else None)
    {| PerformanceBaseline.cpu := "0m1.2s"; PerformanceBaseline.memory := "3 MB/s";
       PerformanceBaseline.disk_write := ""; PerformanceBaseline.network_latency := "";
       PerformanceBaseline.system_load := "load" |}
  = {| PerformanceBaseline.score := 100;
       PerformanceBaseline.level := "excellent";
       PerformanceBaseline.issues := ["Could not parse some benchmark results"] |}.
Proof.
  apply (unreadable_load_hides_memory
           (fun s => if String.eqb s "3" then Some (Finite (3 # 1)) else None)
           {| PerformanceBaseline.cpu := "0m1.2s"; PerformanceBaseline.memory := "3 MB/s";
              PerformanceBaseline.disk_write := "";
              PerformanceBaseline.network_latency := "";
              PerformanceBaseline.system_load := "load" |});
    [discriminate|reflexivity].
Defined.

